(** * GPIO drivers for the ESP32: a shallow embedding of [gpio_drivers.c]

    The driver is a thin layer over the vendor GPIO primitives.  The
    embedding keeps the C structure: a [gpio_t] object living at an
    address, the two file-level statics [isr_service_installed] and
    [s_gpio_instance], and every driver function as a computation over
    that state.  The vendor primitives are an interface ([Backend]); each
    call to one of them is recorded, with its result, in a chronological
    trace, next to the log lines the driver prints. *)

From Stdlib Require Import ZArith List String Bool Lia.
From stdpp Require Import base option gmap.
Import ListNotations.

Local Open Scope Z_scope.

(** ** Platform types used by the driver *)

Definition esp_err_t := Z.
Definition ESP_OK : esp_err_t := 0.
Definition ESP_ERR_INVALID_ARG : esp_err_t := 258.
Definition ESP_ERR_INVALID_STATE : esp_err_t := 259.

(** [gpio_pinout_t]: the enumerators are GPIO numbers; only the ones the
    development names are listed. *)
Definition gpio_pinout_t := Z.
Definition BUILTIN_LED : gpio_pinout_t := 2.
Definition D4 : gpio_pinout_t := 4.
Definition D5 : gpio_pinout_t := 5.
Definition D34 : gpio_pinout_t := 34.

(** [gpio_state_t] is a C enum, that is an integer; [gpio_read] stores in
    it whatever the level read returns. *)
Definition gpio_state_t := Z.
Definition GPIO_STATE_LOW : gpio_state_t := 0.
Definition GPIO_STATE_HIGH : gpio_state_t := 1.

Inductive gpio_mode_t :=
| GPIO_MODE_DISABLE
| GPIO_MODE_INPUT
| GPIO_MODE_OUTPUT
| GPIO_MODE_OUTPUT_OD
| GPIO_MODE_INPUT_OUTPUT_OD
| GPIO_MODE_INPUT_OUTPUT.

Inductive gpio_pullup_t := GPIO_PULLUP_DISABLE | GPIO_PULLUP_ENABLE.
Inductive gpio_pulldown_t := GPIO_PULLDOWN_DISABLE | GPIO_PULLDOWN_ENABLE.

Inductive gpio_int_type_t :=
| GPIO_INTR_DISABLE
| GPIO_INTR_POSEDGE
| GPIO_INTR_NEGEDGE
| GPIO_INTR_ANYEDGE
| GPIO_INTR_LOW_LEVEL
| GPIO_INTR_HIGH_LEVEL.

Record gpio_config_t := mk_gpio_config {
  pin_bit_mask : Z;
  mode : gpio_mode_t;
  pull_up_en : gpio_pullup_t;
  pull_down_en : gpio_pulldown_t;
  intr_type : gpio_int_type_t
}.

(** Code addresses: the three driver functions whose address the source
    takes, user functions (interrupt handlers), and the null pointer. *)
Inductive funptr :=
| fn_null
| fn_gpio_read
| fn_gpio_write
| fn_gpio_toggle
| fn_user (id : Z).

Definition is_null_fn (f : funptr) : bool :=
  match f with fn_null => true | _ => false end.

(** Data addresses ([gpio_t *], [void *]); [NULL] is 0. *)
Definition ptr := Z.
Definition NULL : ptr := 0.

(** [struct gpio], field for field. *)
Record gpio_t := mk_gpio {
  next : ptr;
  pin : gpio_pinout_t;
  _act_state : gpio_state_t;
  _config : gpio_config_t;
  _mode : gpio_mode_t;
  isr_handler : funptr;
  isr_handler_arg : ptr;
  init : funptr;
  set_state : funptr;
  get_state : funptr;
  toggle : funptr
}.

Definition with_get_state (f : funptr) (g : gpio_t) : gpio_t :=
  mk_gpio (next g) (pin g) (_act_state g) (_config g) (_mode g)
          (isr_handler g) (isr_handler_arg g) (init g) (set_state g) f (toggle g).

Definition with_set_state (f : funptr) (g : gpio_t) : gpio_t :=
  mk_gpio (next g) (pin g) (_act_state g) (_config g) (_mode g)
          (isr_handler g) (isr_handler_arg g) (init g) f (get_state g) (toggle g).

(** ** What the driver does to the outside: backend calls and log lines *)

Inductive backend_call :=
| Call_gpio_config (io_conf : gpio_config_t)
| Call_gpio_isr_handler_add (p : gpio_pinout_t) (h : funptr) (arg : ptr)
| Call_gpio_set_level (p : gpio_pinout_t) (level : Z)
| Call_gpio_get_level (p : gpio_pinout_t)
| Call_gpio_install_isr_service (flags : Z)
| Call_gpio_intr_disable (p : gpio_pinout_t)
| Call_gpio_intr_enable (p : gpio_pinout_t).

Inductive log_level := LOG_ERROR | LOG_INFO.

Inductive event :=
| Ev_call (c : backend_call) (ret : Z)
| Ev_log (lvl : log_level) (fmt : string) (args : list Z).

Definition is_install (e : event) : bool :=
  match e with
  | Ev_call (Call_gpio_install_isr_service _) _ => true
  | _ => false
  end.

(** The mode-specific calls of a configuration: pin setup, handler
    registration, level write. *)
Definition is_pin_setup (e : event) : bool :=
  match e with
  | Ev_call (Call_gpio_config _) _
  | Ev_call (Call_gpio_isr_handler_add _ _ _) _
  | Ev_call (Call_gpio_set_level _ _) _ => true
  | _ => false
  end.

Definition is_handler_add (e : event) : bool :=
  match e with
  | Ev_call (Call_gpio_isr_handler_add _ _ _) _ => true
  | _ => false
  end.

Definition install_calls (t : list event) : nat := List.length (List.filter is_install t).

(** ** The platform GPIO backend

    The vendor primitives the driver calls, over an abstract hardware
    state.  Every primitive but the level read returns a status code. *)
Record Backend := mk_backend {
  hw_t : Type;
  be_gpio_config : gpio_config_t -> hw_t -> esp_err_t * hw_t;
  be_gpio_isr_handler_add : gpio_pinout_t -> funptr -> ptr -> hw_t -> esp_err_t * hw_t;
  be_gpio_set_level : gpio_pinout_t -> Z -> hw_t -> esp_err_t * hw_t;
  be_gpio_get_level : gpio_pinout_t -> hw_t -> Z;
  be_gpio_install_isr_service : Z -> hw_t -> esp_err_t * hw_t;
  be_gpio_intr_disable : gpio_pinout_t -> hw_t -> esp_err_t * hw_t;
  be_gpio_intr_enable : gpio_pinout_t -> hw_t -> esp_err_t * hw_t
}.

(** ** Program state and the computation type *)

Section Driver.

Variable be : Backend.

Record world := mk_world {
  hw : hw_t be;
  trace : list event;
  isr_service_installed : bool;
  s_gpio_instance : ptr;
  objs : gmap Z gpio_t
}.

Definition set_hw (h : hw_t be) (w : world) : world :=
  mk_world h (trace w) (isr_service_installed w) (s_gpio_instance w) (objs w).
Definition emit (e : event) (w : world) : world :=
  mk_world (hw w) (trace w ++ [e]) (isr_service_installed w) (s_gpio_instance w) (objs w).
Definition set_installed (b : bool) (w : world) : world :=
  mk_world (hw w) (trace w) b (s_gpio_instance w) (objs w).
Definition set_instance (p : ptr) (w : world) : world :=
  mk_world (hw w) (trace w) (isr_service_installed w) p (objs w).
Definition set_obj (p : ptr) (g : gpio_t) (w : world) : world :=
  mk_world (hw w) (trace w) (isr_service_installed w) (s_gpio_instance w) (<[p:=g]> (objs w)).

(** A call either returns, or the program is aborted ([ESP_ERROR_CHECK] on
    a failed status), or it has no defined behaviour (access through a
    pointer to no object, shift by a count outside the operand's width). *)
Inductive outcome (A : Type) :=
| Done (a : A) (w : world)
| Aborted (w : world)
| Fault.
Arguments Done {A} a w.
Arguments Aborted {A} w.
Arguments Fault {A}.

Definition M (A : Type) := world -> outcome A.

Definition ret {A} (a : A) : M A := fun w => Done a w.
Definition bind {A B} (m : M A) (k : A -> M B) : M B :=
  fun w => match m w with
           | Done a w' => k a w'
           | Aborted w' => Aborted w'
           | Fault => Fault
           end.

Notation "x <- m ;; k" := (bind m (fun x => k))
  (at level 100, m at next level, right associativity).
Notation "m ;;; k" := (bind m (fun _ => k))
  (at level 100, right associativity).

Definition final_world {A} (o : outcome A) : option world :=
  match o with
  | Done _ w => Some w
  | Aborted w => Some w
  | Fault => None
  end.

(** Memory access through a [gpio_t *]. *)
Definition load (p : ptr) : M gpio_t :=
  fun w => match objs w !! p with
           | Some g => Done g w
           | None => Fault
           end.

Definition store (p : ptr) (f : gpio_t -> gpio_t) : M unit :=
  fun w => match objs w !! p with
           | Some g => Done tt (set_obj p (f g) w)
           | None => Fault
           end.

(** A status-returning backend primitive: run it on the hardware, record
    the call with its result. *)
Definition call (c : backend_call) (f : hw_t be -> esp_err_t * hw_t be) : M esp_err_t :=
  fun w => let '(r, h) := f (hw w) in Done r (emit (Ev_call c r) (set_hw h w)).

Definition gpio_config (io_conf : gpio_config_t) : M esp_err_t :=
  call (Call_gpio_config io_conf) (be_gpio_config be io_conf).
Definition gpio_isr_handler_add (p : gpio_pinout_t) (h : funptr) (arg : ptr) : M esp_err_t :=
  call (Call_gpio_isr_handler_add p h arg) (be_gpio_isr_handler_add be p h arg).
Definition gpio_set_level (p : gpio_pinout_t) (level : Z) : M esp_err_t :=
  call (Call_gpio_set_level p level) (be_gpio_set_level be p level).
Definition gpio_get_level (p : gpio_pinout_t) : M Z :=
  fun w => let v := be_gpio_get_level be p (hw w) in
           Done v (emit (Ev_call (Call_gpio_get_level p) v) w).
Definition gpio_install_isr_service (flags : Z) : M esp_err_t :=
  call (Call_gpio_install_isr_service flags) (be_gpio_install_isr_service be flags).
Definition gpio_intr_disable (p : gpio_pinout_t) : M esp_err_t :=
  call (Call_gpio_intr_disable p) (be_gpio_intr_disable be p).
Definition gpio_intr_enable (p : gpio_pinout_t) : M esp_err_t :=
  call (Call_gpio_intr_enable p) (be_gpio_intr_enable be p).

(** [ESP_ERROR_CHECK(x)]: abort the program unless [x] is [ESP_OK] (the
    macro as it is when assertions are compiled in, the default). *)
Definition ESP_ERROR_CHECK (x : M esp_err_t) : M unit :=
  fun w => match x w with
           | Done r w' => if r =? ESP_OK then Done tt w' else Aborted w'
           | Aborted w' => Aborted w'
           | Fault => Fault
           end.

Definition ESP_LOGI (fmt : string) (args : list Z) : M unit :=
  fun w => Done tt (emit (Ev_log LOG_INFO fmt args) w).
Definition ESP_LOGE (fmt : string) (args : list Z) : M unit :=
  fun w => Done tt (emit (Ev_log LOG_ERROR fmt args) w).

(** [1ULL << n]: defined for [0 <= n < 64] only. *)
Definition shl_1ULL (n : Z) : M Z :=
  fun w => if (0 <=? n) && (n <? 64) then Done (Z.shiftl 1 n) w else Fault.

Definition uint8_cast (z : Z) : Z := z mod 256.
Definition uint32_cast (z : Z) : Z := z mod 4294967296.

(** ** The driver *)

Definition GPIO_ISR_SERVICE_DEFAULT_FLAGS : Z := 0.

Definition output_config (mask : Z) : gpio_config_t :=
  mk_gpio_config mask GPIO_MODE_OUTPUT GPIO_PULLUP_DISABLE GPIO_PULLDOWN_DISABLE
                 GPIO_INTR_DISABLE.

Definition input_config (mask : Z) : gpio_config_t :=
  mk_gpio_config mask GPIO_MODE_INPUT GPIO_PULLUP_ENABLE GPIO_PULLDOWN_DISABLE
                 GPIO_INTR_NEGEDGE.

Definition gpio_set_config_output (p : gpio_pinout_t) : M esp_err_t :=
  mask <- shl_1ULL p ;;
  ESP_ERROR_CHECK (gpio_config (output_config mask)) ;;;
  ESP_LOGI "Configured pin %d as output" [p] ;;;
  ret ESP_OK.

Definition gpio_set_config_input (p : gpio_pinout_t) (handler : funptr)
    (handler_arg : ptr) : M esp_err_t :=
  mask <- shl_1ULL (uint8_cast p) ;;
  ESP_ERROR_CHECK (gpio_config (input_config mask)) ;;;
  ESP_LOGI "Configured pin %d as input" [p] ;;;
  if is_null_fn handler then ret ESP_OK
  else
    ESP_ERROR_CHECK (gpio_isr_handler_add p handler handler_arg) ;;;
    ESP_LOGI "Configured ISR handler for pin %d" [p] ;;;
    ret ESP_OK.

Definition gpio_write (self : ptr) (state : gpio_state_t) : M esp_err_t :=
  g <- load self ;;
  gpio_set_level (pin g) (uint32_cast state) ;;;
  ret ESP_OK.

Definition gpio_read (self : ptr) : M gpio_state_t :=
  g <- load self ;;
  gpio_get_level (pin g).

Definition gpio_toggle (self : ptr) : M unit :=
  state <- gpio_read self ;;
  gpio_write self (if state =? GPIO_STATE_LOW then GPIO_STATE_HIGH else GPIO_STATE_LOW) ;;;
  ret tt.

Definition get_instance : M ptr := fun w => Done (s_gpio_instance w) w.
Definition get_installed : M bool := fun w => Done (isr_service_installed w) w.
Definition put_instance (p : ptr) : M unit := fun w => Done tt (set_instance p w).
Definition put_installed (b : bool) : M unit := fun w => Done tt (set_installed b w).

Definition gpio_init_impl (self : ptr) : M unit :=
  put_instance self ;;;
  inst <- get_instance ;;
  store inst (with_get_state fn_gpio_read) ;;;
  store inst (with_set_state fn_gpio_write) ;;;
  g <- load inst ;;
  match _mode g with
  | GPIO_MODE_INPUT =>
      gpio_set_config_input (pin g) (isr_handler g) NULL ;;; ret tt
  | GPIO_MODE_OUTPUT =>
      gpio_set_config_output (pin g) ;;;
      gpio_write inst (_act_state g) ;;;
      ret tt
  | _ => ESP_LOGE "Invalid GPIO mode" []
  end ;;;
  installed <- get_installed ;;
  if negb installed then
    ESP_ERROR_CHECK (gpio_install_isr_service GPIO_ISR_SERVICE_DEFAULT_FLAGS) ;;;
    put_installed true
  else
    ESP_LOGI "ISR service already installed" [].

Definition gpio_disable_isr (self : ptr) : M esp_err_t :=
  g <- load self ;;
  gpio_intr_disable (pin g).

Definition gpio_enable_isr (self : ptr) : M esp_err_t :=
  g <- load self ;;
  gpio_intr_enable (pin g).

End Driver.

Arguments Done {be A} a w.
Arguments Aborted {be A} w.
Arguments Fault {be A}.
Arguments final_world {be A} o.
Arguments hw {be} w.
Arguments trace {be} w.
Arguments isr_service_installed {be} w.
Arguments s_gpio_instance {be} w.
Arguments objs {be} w.

(** The state of a program that has not called the driver yet: the
    statics hold their initialisers. *)
Definition boot (be : Backend) (h : hw_t be) (heap : gmap Z gpio_t) : world be :=
  mk_world be h [] false NULL heap.

(** ** Programs: sequences of driver calls *)

Inductive op :=
| Op_init (self : ptr)
| Op_write (self : ptr) (state : gpio_state_t)
| Op_read (self : ptr)
| Op_toggle (self : ptr)
| Op_disable_isr (self : ptr)
| Op_enable_isr (self : ptr).

Definition discard {be A} (m : M be A) : M be unit :=
  bind be m (fun _ => ret be tt).

Definition step (be : Backend) (o : op) : M be unit :=
  match o with
  | Op_init self => gpio_init_impl be self
  | Op_write self s => discard (gpio_write be self s)
  | Op_read self => discard (gpio_read be self)
  | Op_toggle self => gpio_toggle be self
  | Op_disable_isr self => discard (gpio_disable_isr be self)
  | Op_enable_isr self => discard (gpio_enable_isr be self)
  end.

Fixpoint run (be : Backend) (os : list op) : M be unit :=
  match os with
  | [] => ret be tt
  | o :: os' => bind be (step be o) (fun _ => run be os')
  end.

(** The logical inverse of a level, as [gpio_toggle] computes it. *)
Definition invert (s : gpio_state_t) : gpio_state_t :=
  if s =? GPIO_STATE_LOW then GPIO_STATE_HIGH else GPIO_STATE_LOW.

Definition is_state (s : gpio_state_t) : Prop :=
  s = GPIO_STATE_LOW \/ s = GPIO_STATE_HIGH.

(** The modes [gpio_init_impl] has a case for. *)
Definition valid_mode (m : gpio_mode_t) : bool :=
  match m with
  | GPIO_MODE_INPUT | GPIO_MODE_OUTPUT => true
  | _ => false
  end.

(** ** Assumptions on the backend

    A backend whose lines hold what was written to them: an accepted
    level write is what the next level read reports, a pin accepted as an
    output accepts level writes, and installing the dispatch service
    leaves the lines alone. *)
Record line_faithful (be : Backend) : Prop := {
  lf_set_get : forall p l h,
    fst (be_gpio_set_level be p l h) = ESP_OK ->
    be_gpio_get_level be p (snd (be_gpio_set_level be p l h)) =
      (if l =? 0 then 0 else 1);
  lf_output_writable : forall p l h h',
    be_gpio_config be (output_config (Z.shiftl 1 p)) h = (ESP_OK, h') ->
    fst (be_gpio_set_level be p l h') = ESP_OK;
  lf_install_keeps_level : forall flags p h,
    be_gpio_get_level be p (snd (be_gpio_install_isr_service be flags h)) =
      be_gpio_get_level be p h
}.

(** ** A simulated backend

    A test double for the platform, to run the driver on concrete
    inputs: the level of each line, the dispatch table of the interrupt
    service, whether the service is installed, and which pins have their
    interrupt unmasked; [installs] counts the invocations of the
    installation primitive.  GPIO 0..39 exist, 34..39 are input only; a
    handler can be added only once the service is installed, and the
    service can be installed once. *)
Module Sim.

Record hw := mk_hw {
  line : gmap Z Z;
  direction : gmap Z gpio_mode_t;
  dispatch : gmap Z (funptr * ptr);
  service : bool;
  unmasked : gset Z;
  installs : nat
}.

Definition valid_gpio (p : Z) : bool := (0 <=? p) && (p <? 40).
Definition valid_output_gpio (p : Z) : bool := (0 <=? p) && (p <? 34).

Definition drives_output (m : gpio_mode_t) : bool :=
  match m with
  | GPIO_MODE_OUTPUT | GPIO_MODE_OUTPUT_OD
  | GPIO_MODE_INPUT_OUTPUT_OD | GPIO_MODE_INPUT_OUTPUT => true
  | _ => false
  end.

Definition pins_of_mask (mask : Z) : list Z :=
  List.filter (Z.testbit mask) (List.map Z.of_nat (List.seq 0 64)).

Definition pin_accepts (m : gpio_mode_t) (p : Z) : bool :=
  if drives_output m then valid_output_gpio p else valid_gpio p.

Definition configure_pin (cfg : gpio_config_t) (p : Z) (h : hw) : hw :=
  mk_hw (line h) (<[p := mode cfg]> (direction h)) (dispatch h) (service h)
        (match intr_type cfg with
         | GPIO_INTR_DISABLE => unmasked h ∖ {[p]}
         | _ => {[p]} ∪ unmasked h
         end)
        (installs h).

Definition gpio_config (cfg : gpio_config_t) (h : hw) : esp_err_t * hw :=
  let ps := pins_of_mask (pin_bit_mask cfg) in
  match ps with
  | [] => (ESP_ERR_INVALID_ARG, h)
  | _ =>
      if List.forallb (pin_accepts (mode cfg)) ps
      then (ESP_OK, List.fold_right (configure_pin cfg) h ps)
      else (ESP_ERR_INVALID_ARG, h)
  end.

Definition gpio_isr_handler_add (p : Z) (f : funptr) (arg : ptr) (h : hw) : esp_err_t * hw :=
  if negb (service h) then (ESP_ERR_INVALID_STATE, h)
  else if valid_gpio p
  then (ESP_OK, mk_hw (line h) (direction h) (<[p := (f, arg)]> (dispatch h))
                      (service h) (unmasked h) (installs h))
  else (ESP_ERR_INVALID_ARG, h).

Definition gpio_set_level (p : Z) (level : Z) (h : hw) : esp_err_t * hw :=
  if valid_output_gpio p
  then (ESP_OK, mk_hw (<[p := if level =? 0 then 0 else 1]> (line h)) (direction h)
                      (dispatch h) (service h) (unmasked h) (installs h))
  else (ESP_ERR_INVALID_ARG, h).

Definition gpio_get_level (p : Z) (h : hw) : Z := default 0 (line h !! p).

Definition gpio_install_isr_service (flags : Z) (h : hw) : esp_err_t * hw :=
  if service h
  then (ESP_ERR_INVALID_STATE,
        mk_hw (line h) (direction h) (dispatch h) (service h) (unmasked h)
              (S (installs h)))
  else (ESP_OK, mk_hw (line h) (direction h) (dispatch h) true (unmasked h)
                      (S (installs h))).

Definition gpio_intr_disable (p : Z) (h : hw) : esp_err_t * hw :=
  if valid_gpio p
  then (ESP_OK, mk_hw (line h) (direction h) (dispatch h) (service h)
                      (unmasked h ∖ {[p]}) (installs h))
  else (ESP_ERR_INVALID_ARG, h).

Definition gpio_intr_enable (p : Z) (h : hw) : esp_err_t * hw :=
  if valid_gpio p
  then (ESP_OK, mk_hw (line h) (direction h) (dispatch h) (service h)
                      ({[p]} ∪ unmasked h) (installs h))
  else (ESP_ERR_INVALID_ARG, h).

(** What the dispatch service runs on a qualifying edge on pin [p]: the
    registered handler with the registered argument, if the pin's
    interrupt is unmasked. *)
Definition on_edge (p : Z) (h : hw) : option (funptr * ptr) :=
  if service h && bool_decide (p ∈ unmasked h) then dispatch h !! p else None.

Definition backend : Backend :=
  mk_backend hw gpio_config gpio_isr_handler_add gpio_set_level gpio_get_level
             gpio_install_isr_service gpio_intr_disable gpio_intr_enable.

(** Power-on hardware: every line low, nothing registered. *)
Definition reset : hw := mk_hw ∅ ∅ ∅ false ∅ 0.

(** The environment forces line [p] to level [v] (an external driver on
    the wire); not something the driver does. *)
Definition force (p : Z) (v : Z) (h : hw) : hw :=
  mk_hw (<[p := v]> (line h)) (direction h) (dispatch h) (service h) (unmasked h)
        (installs h).

End Sim.

(** ** Concrete pin objects *)

Definition blank_config : gpio_config_t :=
  mk_gpio_config 0 GPIO_MODE_DISABLE GPIO_PULLUP_DISABLE GPIO_PULLDOWN_DISABLE
                 GPIO_INTR_DISABLE.

(** A [gpio_t] as an application fills it in before [gpio_init_impl]: pin,
    mode, initial state and handler set, everything else zero. *)
Definition new_gpio (p : gpio_pinout_t) (m : gpio_mode_t) (s : gpio_state_t)
    (h : funptr) (arg : ptr) : gpio_t :=
  mk_gpio NULL p s blank_config m h arg fn_null fn_null fn_null fn_null.

Definition led : gpio_t := new_gpio BUILTIN_LED GPIO_MODE_OUTPUT GPIO_STATE_LOW fn_null NULL.
Definition lamp : gpio_t := new_gpio D4 GPIO_MODE_OUTPUT GPIO_STATE_HIGH fn_null NULL.
Definition switch : gpio_t := new_gpio D5 GPIO_MODE_INPUT GPIO_STATE_LOW fn_null NULL.
Definition button : gpio_t := new_gpio D5 GPIO_MODE_INPUT GPIO_STATE_LOW (fn_user 7) 4096.
Definition sensor : gpio_t := new_gpio D34 GPIO_MODE_INPUT GPIO_STATE_LOW fn_null NULL.
Definition unset : gpio_t := new_gpio D4 GPIO_MODE_DISABLE GPIO_STATE_LOW fn_null NULL.

(** One object of each kind, at addresses 16, 32, ... *)
Definition heap0 : gmap Z gpio_t :=
  <[16 := led]> (<[32 := lamp]> (<[48 := switch]> (<[64 := button]>
  (<[80 := sensor]> (<[96 := unset]> ∅))))).

Definition boot0 : world Sim.backend := boot Sim.backend Sim.reset heap0.

(** The state a computation ends in ([d] if it has none). *)
Definition world_of {be A} (o : outcome be A) (d : world be) : world be :=
  match final_world o with Some w => w | None => d end.

(** The value a computation returns, if it returns. *)
Definition returns {be A} (o : outcome be A) : option A :=
  match o with Done a _ => Some a | _ => None end.

(** The simulated program state after the calls [os], from boot. *)
Definition after (os : list op) : world Sim.backend :=
  world_of (run Sim.backend os boot0) boot0.

(** The LED line forced high from outside after the LED object was
    initialised. *)
Definition led_forced_high : world Sim.backend :=
  set_hw Sim.backend (Sim.force BUILTIN_LED 1 (hw (after [Op_init 16]))) (after [Op_init 16]).

(** Two initialisations from boot, and three more calls after them. *)
Definition two_inits : world Sim.backend := after [Op_init 96; Op_init 16].
Definition five_calls : world Sim.backend :=
  world_of (run Sim.backend [Op_init 64; Op_toggle 16; Op_init 48] two_inits) boot0.

(** The LED, then the button with its handler and argument. *)
Definition led_then_button : world Sim.backend := after [Op_init 16; Op_init 64].

(** The sensor on the input-only GPIO 34, initialised. *)
Definition sensor_ready : world Sim.backend := after [Op_init 80].

(** The new events of [w'] with respect to [w]. *)
Definition extends {be} (w w' : world be) (evs : list event) : Prop :=
  trace w' = trace w ++ evs.

(** ** The blocks of [gpio_init_impl]

    After its assignments to the object, the function is the [switch] on
    the mode followed by the [if] on [isr_service_installed]; the two
    blocks are named here, and [gpio_init_impl_blocks] below shows the
    function is their sequence, run from [after_prologue]. *)
Definition init_switch (be : Backend) (inst : ptr) (g : gpio_t) : M be unit :=
  match _mode g with
  | GPIO_MODE_INPUT =>
      bind be (gpio_set_config_input be (pin g) (isr_handler g) NULL) (fun _ => ret be tt)
  | GPIO_MODE_OUTPUT =>
      bind be (gpio_set_config_output be (pin g)) (fun _ =>
      bind be (gpio_write be inst (_act_state g)) (fun _ => ret be tt))
  | _ => ESP_LOGE be "Invalid GPIO mode" []
  end.

Definition init_install (be : Backend) : M be unit :=
  bind be (get_installed be) (fun installed =>
  if negb installed then
    bind be (ESP_ERROR_CHECK be (gpio_install_isr_service be GPIO_ISR_SERVICE_DEFAULT_FLAGS))
         (fun _ => put_installed be true)
  else ESP_LOGI be "ISR service already installed" []).

(** The object after the two assignments of [gpio_init_impl]. *)
Definition wired (g : gpio_t) : gpio_t :=
  with_set_state fn_gpio_write (with_get_state fn_gpio_read g).

(** The state [gpio_init_impl] reaches after its assignments. *)
Definition after_prologue {be} (self : ptr) (g : gpio_t) (w : world be) : world be :=
  mk_world be (hw w) (trace w) (isr_service_installed w) self
           (<[self := wired g]> (objs w)).

(** ** Relations between the state before and after a computation *)

(** [m] takes every state to a state related to it by [R], whether it
    returns or aborts. *)
Definition preserves {be A} (R : world be -> world be -> Prop) (m : M be A) : Prop :=
  forall w w', final_world (m w) = Some w' -> R w w'.

(** No installation call is made and the installed flag is left alone. *)
Definition no_install {be} (w w' : world be) : Prop :=
  isr_service_installed w' = isr_service_installed w /\
  exists evs, extends w w' evs /\ install_calls evs = 0%nat.

(** The objects are left alone. *)
Definition same_objs {be} (w w' : world be) : Prop :=
  objs w' = objs w.

(** At most one installation call so far, and the flag says whether
    there was one. *)
Definition flag_counts {be} (w : world be) : Prop :=
  install_calls (trace w) = (if isr_service_installed w then 1 else 0)%nat.

(** ** Further notions on programs and traces *)

(** The static [s_gpio_instance] is left alone. *)
Definition keeps_instance {be} (w w' : world be) : Prop :=
  s_gpio_instance w' = s_gpio_instance w.

Definition is_init (o : op) : bool :=
  match o with Op_init _ => true | _ => false end.

(** The object of the last initialisation in [os] ([d] if there is none). *)
Fixpoint last_init (os : list op) (d : ptr) : ptr :=
  match os with
  | [] => d
  | Op_init self :: os' => last_init os' self
  | _ :: os' => last_init os' d
  end.

(** Calls that set a pin up or touch the dispatch service, as opposed to
    level reads and writes and interrupt masking. *)
Definition is_setup_call (e : event) : bool :=
  match e with
  | Ev_call (Call_gpio_config _) _
  | Ev_call (Call_gpio_isr_handler_add _ _ _) _
  | Ev_call (Call_gpio_install_isr_service _) _ => true
  | _ => false
  end.

(** What a program without initialisation may do to the state: add
    events that are no setup calls. *)
Definition steady {be} (w w' : world be) : Prop :=
  objs w' = objs w /\
  isr_service_installed w' = isr_service_installed w /\
  s_gpio_instance w' = s_gpio_instance w /\
  exists evs, extends w w' evs /\ List.forallb (fun e => negb (is_setup_call e)) evs = true.

(** The installation call of [gpio_init_impl], answered with success. *)
Definition install_succeeded : event :=
  Ev_call (Call_gpio_install_isr_service GPIO_ISR_SERVICE_DEFAULT_FLAGS) ESP_OK.

(** The flag is set exactly if an installation has succeeded. *)
Definition flag_tells {be} (w : world be) : Prop :=
  isr_service_installed w = true <-> In install_succeeded (trace w).

(** Every object is as it was, or as it was with the two accessors
    assigned. *)
Definition only_wired {be} (w w' : world be) : Prop :=
  forall p : ptr, objs w' !! p = objs w !! p \/ objs w' !! p = wired <$> objs w !! p.

(** The configuration [gpio_init_impl] passes to the platform for an
    object of a valid mode, and the shift count of its mask. *)
Definition shift_count (g : gpio_t) : Z :=
  match _mode g with
  | GPIO_MODE_INPUT => uint8_cast (pin g)
  | _ => pin g
  end.

Definition pin_config (g : gpio_t) : gpio_config_t :=
  match _mode g with
  | GPIO_MODE_INPUT => input_config (Z.shiftl 1 (shift_count g))
  | _ => output_config (Z.shiftl 1 (shift_count g))
  end.

(** An output object on the input-only GPIO 34, at address 112. *)
Definition valve : gpio_t := new_gpio D34 GPIO_MODE_OUTPUT GPIO_STATE_HIGH fn_null NULL.
Definition boot1 : world Sim.backend :=
  boot Sim.backend Sim.reset (<[112 := valve]> heap0).

(** ** A platform whose output-only pads read low

    A second test double: as [Sim], except that the level read of a pad
    configured without its input path ([GPIO_MODE_OUTPUT],
    [GPIO_MODE_OUTPUT_OD], [GPIO_MODE_DISABLE]) gives 0 whatever the
    line is driven to, as the vendor documents for its level read. *)
Module Pad.

Definition reads_input (m : gpio_mode_t) : bool :=
  match m with
  | GPIO_MODE_INPUT | GPIO_MODE_INPUT_OUTPUT | GPIO_MODE_INPUT_OUTPUT_OD => true
  | _ => false
  end.

Definition gpio_get_level (p : Z) (h : Sim.hw) : Z :=
  match Sim.direction h !! p with
  | Some m => if reads_input m then Sim.gpio_get_level p h else 0
  | None => Sim.gpio_get_level p h
  end.

Definition backend : Backend :=
  mk_backend Sim.hw Sim.gpio_config Sim.gpio_isr_handler_add Sim.gpio_set_level
             gpio_get_level Sim.gpio_install_isr_service Sim.gpio_intr_disable
             Sim.gpio_intr_enable.

Definition boot0 : world backend := boot backend Sim.reset heap0.

(** The state after the lamp object (GPIO 4, declared high) has been
    initialised from boot. *)
Definition lamp_ready : world backend :=
  world_of (gpio_init_impl backend 32 boot0) boot0.

End Pad.

(** * Properties *)

(** ** Small facts on levels, casts and traces *)

Lemma invert_cases (s : gpio_state_t) :
  invert s = GPIO_STATE_LOW \/ invert s = GPIO_STATE_HIGH.
Proof. unfold invert. destruct (s =? GPIO_STATE_LOW); auto. Qed.

Lemma uint32_cast_state (s : gpio_state_t) : is_state s -> uint32_cast s = s.
Proof. intros [-> | ->]; reflexivity. Qed.

Lemma uint32_cast_invert (s : gpio_state_t) : uint32_cast (invert s) = invert s.
Proof. apply uint32_cast_state. destruct (invert_cases s); [left | right]; done. Qed.

Lemma install_calls_app (t u : list event) :
  install_calls (t ++ u) = (install_calls t + install_calls u)%nat.
Proof. unfold install_calls. by rewrite List.filter_app, List.length_app. Qed.

Lemma install_calls_not_install (e : event) :
  is_install e = false -> install_calls [e] = 0%nat.
Proof. intros H. unfold install_calls. simpl. by rewrite H. Qed.

(** ** Composition rules for [preserves] *)

Section Rules.

Variable be : Backend.
Context {A B : Type}.
Variable R : world be -> world be -> Prop.
Context `{!PreOrder R}.

Lemma preserves_ret (a : A) : preserves R (ret be a).
Proof. intros w w' H. simpl in H. by simplify_eq. Qed.

Lemma preserves_bind (m : M be A) (k : A -> M be B) :
  preserves R m -> (forall a, preserves R (k a)) -> preserves R (bind be m k).
Proof.
  intros Hm Hk w w' H. unfold bind in H.
  destruct (m w) as [a w1 | w1 |] eqn:E; simpl in H.
  - transitivity w1.
    + apply Hm. by rewrite E.
    + by apply (Hk a).
  - simplify_eq. apply Hm. by rewrite E.
  - discriminate.
Qed.

Lemma preserves_check (m : M be esp_err_t) :
  preserves R m -> preserves R (ESP_ERROR_CHECK be m).
Proof.
  intros Hm w w' H. unfold ESP_ERROR_CHECK in H. apply Hm.
  destruct (m w) as [r w1 | w1 |]; simpl in *; [| done | done].
  by destruct (r =? ESP_OK).
Qed.

Lemma preserves_load (p : ptr) : preserves R (load be p).
Proof.
  intros w w' H. unfold load in H.
  destruct (objs w !! p); simpl in H; by simplify_eq.
Qed.

Lemma preserves_shl (n : Z) : preserves R (shl_1ULL be n).
Proof.
  intros w w' H. unfold shl_1ULL in H.
  destruct ((0 <=? n) && (n <? 64)); simpl in H; by simplify_eq.
Qed.

End Rules.

(** ** The two frame relations *)

Section Frames.

Variable be : Backend.

#[local] Instance no_install_preorder : PreOrder (@no_install be).
Proof.
  split.
  - intros w. split; [done |]. exists []. split; [| done].
    unfold extends. by rewrite List.app_nil_r.
  - intros w1 w2 w3 [Hf1 (e1 & He1 & Hc1)] [Hf2 (e2 & He2 & Hc2)].
    split; [congruence |]. exists (e1 ++ e2). split.
    + unfold extends in *. by rewrite He2, He1, <- List.app_assoc.
    + rewrite install_calls_app. lia.
Qed.

#[local] Instance same_objs_preorder : PreOrder (@same_objs be).
Proof.
  split.
  - by intros w.
  - intros w1 w2 w3 H1 H2. unfold same_objs in *. congruence.
Qed.

Lemma no_install_emit (e : event) (h : hw_t be) (w : world be) :
  is_install e = false -> no_install w (emit be e (set_hw be h w)).
Proof.
  intros He. split; [done |]. exists [e]. split; [done |].
  by apply install_calls_not_install.
Qed.

Lemma call_no_install (c : backend_call) (f : hw_t be -> esp_err_t * hw_t be) :
  (forall r, is_install (Ev_call c r) = false) -> preserves no_install (call be c f).
Proof.
  intros Hc w w' H. unfold call in H.
  destruct (f (hw w)) as [r h]. simpl in H. simplify_eq.
  by apply no_install_emit.
Qed.

Lemma call_same_objs (c : backend_call) (f : hw_t be -> esp_err_t * hw_t be) :
  preserves same_objs (call be c f).
Proof.
  intros w w' H. unfold call in H.
  destruct (f (hw w)) as [r h]. simpl in H. by simplify_eq.
Qed.

Lemma get_level_no_install (p : gpio_pinout_t) : preserves no_install (gpio_get_level be p).
Proof.
  intros w w' H. unfold gpio_get_level in H. simpl in H. simplify_eq.
  split; [done |]. by exists [Ev_call (Call_gpio_get_level p) (be_gpio_get_level be p (hw w))].
Qed.

Lemma get_level_same_objs (p : gpio_pinout_t) : preserves same_objs (gpio_get_level be p).
Proof. intros w w' H. unfold gpio_get_level in H. simpl in H. by simplify_eq. Qed.

Lemma logi_no_install fmt args : preserves no_install (ESP_LOGI be fmt args).
Proof.
  intros w w' H. unfold ESP_LOGI in H. simpl in H. simplify_eq.
  split; [done |]. by exists [Ev_log LOG_INFO fmt args].
Qed.

Lemma loge_no_install fmt args : preserves no_install (ESP_LOGE be fmt args).
Proof.
  intros w w' H. unfold ESP_LOGE in H. simpl in H. simplify_eq.
  split; [done |]. by exists [Ev_log LOG_ERROR fmt args].
Qed.

Lemma logi_same_objs fmt args : preserves same_objs (ESP_LOGI be fmt args).
Proof. intros w w' H. unfold ESP_LOGI in H. simpl in H. by simplify_eq. Qed.

Lemma loge_same_objs fmt args : preserves same_objs (ESP_LOGE be fmt args).
Proof. intros w w' H. unfold ESP_LOGE in H. simpl in H. by simplify_eq. Qed.

End Frames.

#[local] Existing Instance no_install_preorder.
#[local] Existing Instance same_objs_preorder.

(** Unfold a driver function down to the primitives and apply the rules. *)
Ltac frame :=
  repeat match goal with
  | |- PreOrder _ => typeclasses eauto
  | |- preserves _ (bind _ _ _) => apply preserves_bind; [| | intros ?]
  | |- preserves _ (ESP_ERROR_CHECK _ _) => apply preserves_check
  | |- preserves _ (ret _ _) => apply preserves_ret
  | |- preserves _ (load _ _) => apply preserves_load
  | |- preserves _ (shl_1ULL _ _) => apply preserves_shl
  | |- preserves same_objs (call _ _ _) => apply call_same_objs
  | |- preserves no_install (call _ _ _) =>
      apply call_no_install; intros ?; reflexivity
  | |- preserves no_install (gpio_get_level _ _) => apply get_level_no_install
  | |- preserves same_objs (gpio_get_level _ _) => apply get_level_same_objs
  | |- preserves no_install (ESP_LOGI _ _ _) => apply logi_no_install
  | |- preserves no_install (ESP_LOGE _ _ _) => apply loge_no_install
  | |- preserves same_objs (ESP_LOGI _ _ _) => apply logi_same_objs
  | |- preserves same_objs (ESP_LOGE _ _ _) => apply loge_same_objs
  end.

(** Compare two traces built by [emit]. *)
Ltac solve_extends :=
  unfold extends;
  cbn [trace emit set_hw set_installed set_instance set_obj after_prologue];
  rewrite <- ?List.app_assoc; reflexivity.

Section Driver_frames.

Variable be : Backend.

Lemma gpio_write_no_install self s : preserves no_install (gpio_write be self s).
Proof. unfold gpio_write, gpio_set_level. frame. Qed.

Lemma gpio_write_same_objs self s : preserves same_objs (gpio_write be self s).
Proof. unfold gpio_write, gpio_set_level. frame. Qed.

Lemma gpio_read_no_install self : preserves no_install (gpio_read be self).
Proof. unfold gpio_read. frame. Qed.

Lemma gpio_read_same_objs self : preserves same_objs (gpio_read be self).
Proof. unfold gpio_read. frame. Qed.

Lemma gpio_toggle_no_install self : preserves no_install (gpio_toggle be self).
Proof.
  unfold gpio_toggle. frame;
    auto using gpio_read_no_install, gpio_write_no_install.
Qed.

Lemma gpio_disable_isr_no_install self : preserves no_install (gpio_disable_isr be self).
Proof. unfold gpio_disable_isr, gpio_intr_disable. frame. Qed.

Lemma gpio_enable_isr_no_install self : preserves no_install (gpio_enable_isr be self).
Proof. unfold gpio_enable_isr, gpio_intr_enable. frame. Qed.

Lemma gpio_set_config_output_no_install p :
  preserves no_install (gpio_set_config_output be p).
Proof. unfold gpio_set_config_output, gpio_config. frame. Qed.

Lemma gpio_set_config_output_same_objs p :
  preserves same_objs (gpio_set_config_output be p).
Proof. unfold gpio_set_config_output, gpio_config. frame. Qed.

Lemma gpio_set_config_input_no_install p h arg :
  preserves no_install (gpio_set_config_input be p h arg).
Proof.
  unfold gpio_set_config_input, gpio_config, gpio_isr_handler_add. frame.
  destruct (is_null_fn h); frame.
Qed.

Lemma gpio_set_config_input_same_objs p h arg :
  preserves same_objs (gpio_set_config_input be p h arg).
Proof.
  unfold gpio_set_config_input, gpio_config, gpio_isr_handler_add. frame.
  destruct (is_null_fn h); frame.
Qed.

Lemma init_switch_no_install inst g : preserves no_install (init_switch be inst g).
Proof.
  unfold init_switch. destruct (_mode g); frame;
    auto using gpio_set_config_input_no_install, gpio_set_config_output_no_install,
      gpio_write_no_install.
Qed.

Lemma init_switch_same_objs inst g : preserves same_objs (init_switch be inst g).
Proof.
  unfold init_switch. destruct (_mode g); frame;
    auto using gpio_set_config_input_same_objs, gpio_set_config_output_same_objs,
      gpio_write_same_objs.
Qed.

End Driver_frames.

(** ** What each driver function does on a given state *)

Section Runs.

Variable be : Backend.

Lemma gpio_write_run self g s (w : world be) :
  objs w !! self = Some g ->
  gpio_write be self s w =
    Done ESP_OK
      (emit be (Ev_call (Call_gpio_set_level (pin g) (uint32_cast s))
                        (fst (be_gpio_set_level be (pin g) (uint32_cast s) (hw w))))
               (set_hw be (snd (be_gpio_set_level be (pin g) (uint32_cast s) (hw w))) w)).
Proof.
  intros Hg. unfold gpio_write, bind, load, gpio_set_level, call, ret.
  rewrite Hg. by destruct (be_gpio_set_level be (pin g) (uint32_cast s) (hw w)).
Qed.

Lemma gpio_read_run self g (w : world be) :
  objs w !! self = Some g ->
  gpio_read be self w =
    Done (be_gpio_get_level be (pin g) (hw w))
      (emit be (Ev_call (Call_gpio_get_level (pin g)) (be_gpio_get_level be (pin g) (hw w))) w).
Proof. intros Hg. unfold gpio_read, bind, load, gpio_get_level. by rewrite Hg. Qed.

Lemma gpio_toggle_run self g (w : world be) :
  objs w !! self = Some g ->
  gpio_toggle be self w =
    bind be (gpio_write be self (invert (be_gpio_get_level be (pin g) (hw w))))
         (fun _ => ret be tt)
         (emit be (Ev_call (Call_gpio_get_level (pin g)) (be_gpio_get_level be (pin g) (hw w))) w).
Proof.
  intros Hg. unfold gpio_toggle. unfold bind at 1. by rewrite (gpio_read_run self g).
Qed.

Lemma gpio_enable_isr_run self g (w : world be) :
  objs w !! self = Some g ->
  gpio_enable_isr be self w =
    Done (fst (be_gpio_intr_enable be (pin g) (hw w)))
      (emit be (Ev_call (Call_gpio_intr_enable (pin g)) (fst (be_gpio_intr_enable be (pin g) (hw w))))
               (set_hw be (snd (be_gpio_intr_enable be (pin g) (hw w))) w)).
Proof.
  intros Hg. unfold gpio_enable_isr, bind, load, gpio_intr_enable, call.
  rewrite Hg. by destruct (be_gpio_intr_enable be (pin g) (hw w)).
Qed.

Lemma gpio_disable_isr_run self g (w : world be) :
  objs w !! self = Some g ->
  gpio_disable_isr be self w =
    Done (fst (be_gpio_intr_disable be (pin g) (hw w)))
      (emit be (Ev_call (Call_gpio_intr_disable (pin g)) (fst (be_gpio_intr_disable be (pin g) (hw w))))
               (set_hw be (snd (be_gpio_intr_disable be (pin g) (hw w))) w)).
Proof.
  intros Hg. unfold gpio_disable_isr, bind, load, gpio_intr_disable, call.
  rewrite Hg. by destruct (be_gpio_intr_disable be (pin g) (hw w)).
Qed.

Lemma gpio_init_impl_blocks self g (w : world be) :
  objs w !! self = Some g ->
  gpio_init_impl be self w =
    bind be (init_switch be self (wired g)) (fun _ => init_install be)
         (after_prologue self g w).
Proof.
  intros Hg. unfold gpio_init_impl.
  unfold bind at 1. unfold put_instance.
  unfold bind at 1. unfold get_instance. cbn [s_gpio_instance set_instance].
  unfold bind at 1. unfold store at 1. cbn [objs set_instance]. rewrite Hg.
  unfold bind at 1. unfold store at 1. cbn [objs set_obj set_instance].
  rewrite lookup_insert_eq.
  unfold bind at 1. unfold load at 1. cbn [objs set_obj set_instance].
  rewrite lookup_insert_eq.
  cbn [hw trace isr_service_installed s_gpio_instance objs set_instance].
  fold (wired g).
  replace (set_obj be self (wired g)
             (set_obj be self (with_get_state fn_gpio_read g) (set_instance be self w)))
    with (after_prologue self g w); [reflexivity |].
  unfold after_prologue, set_obj, set_instance. cbn.
  by rewrite insert_insert_eq.
Qed.

Lemma gpio_init_impl_dangling self (w : world be) :
  objs w !! self = None -> gpio_init_impl be self w = Fault.
Proof.
  intros Hg. unfold gpio_init_impl.
  unfold bind at 1. unfold put_instance.
  unfold bind at 1. unfold get_instance. cbn [s_gpio_instance set_instance].
  unfold bind at 1. unfold store at 1. cbn [objs set_instance]. by rewrite Hg.
Qed.

Lemma init_install_run (w : world be) :
  init_install be w =
    if isr_service_installed w
    then Done tt (emit be (Ev_log LOG_INFO "ISR service already installed" []) w)
    else
      let rh := be_gpio_install_isr_service be GPIO_ISR_SERVICE_DEFAULT_FLAGS (hw w) in
      let w1 := emit be (Ev_call (Call_gpio_install_isr_service GPIO_ISR_SERVICE_DEFAULT_FLAGS)
                                 (fst rh)) (set_hw be (snd rh) w) in
      if fst rh =? ESP_OK then Done tt (set_installed be true w1) else Aborted w1.
Proof.
  unfold init_install, bind, get_installed.
  destruct (isr_service_installed w); simpl; [done |].
  unfold ESP_ERROR_CHECK, gpio_install_isr_service, call.
  destruct (be_gpio_install_isr_service be GPIO_ISR_SERVICE_DEFAULT_FLAGS (hw w)) as [r h].
  simpl. by destruct (r =? ESP_OK).
Qed.

End Runs.

(** ** Reading off outcomes *)

Lemma returns_Done {be A} (o : outcome be A) (a : A) (d : world be) :
  returns o = Some a -> o = Done a (world_of o d).
Proof. destruct o; simpl; intros H; by simplify_eq. Qed.

Lemma returns_final {be A} (o : outcome be A) (a : A) (d : world be) :
  returns o = Some a -> final_world o = Some (world_of o d).
Proof. destruct o; simpl; intros H; by simplify_eq. Qed.

(** ** Toggle *)

(** C1, as stated, fails.  The LED object is initialised (its declared
    state, low, is written), then something else pulls the line high.
    The last commanded state and the [_act_state] field are both low, so
    a toggle computed from them would write high with no level read;
    [gpio_toggle] reads the line, sees high, and writes low. *)
Lemma gpio_toggle_not_from_commanded_state :
  returns (run Sim.backend [Op_init 16] boot0) = Some tt /\
  objs led_forced_high !! 16 = Some (wired led) /\
  _mode (wired led) = GPIO_MODE_OUTPUT /\
  pin (wired led) = BUILTIN_LED /\
  _act_state (wired led) = GPIO_STATE_LOW /\
  invert (_act_state (wired led)) = GPIO_STATE_HIGH /\
  returns (gpio_toggle Sim.backend 16 led_forced_high) = Some tt /\
  trace (world_of (gpio_toggle Sim.backend 16 led_forced_high) led_forced_high) =
    trace led_forced_high ++
      [Ev_call (Call_gpio_get_level BUILTIN_LED) 1;
       Ev_call (Call_gpio_set_level BUILTIN_LED GPIO_STATE_LOW) ESP_OK].
Proof. repeat split; vm_compute; reflexivity. Qed.

(** The whole effect of a toggle, in terms of the two backend answers. *)
Lemma gpio_toggle_full_run (be : Backend) self g (w : world be) :
  objs w !! self = Some g ->
  gpio_toggle be self w =
    Done tt
      (mk_world be
         (snd (be_gpio_set_level be (pin g)
                 (invert (be_gpio_get_level be (pin g) (hw w))) (hw w)))
         (trace w ++
            [Ev_call (Call_gpio_get_level (pin g)) (be_gpio_get_level be (pin g) (hw w));
             Ev_call (Call_gpio_set_level (pin g)
                        (invert (be_gpio_get_level be (pin g) (hw w))))
                     (fst (be_gpio_set_level be (pin g)
                             (invert (be_gpio_get_level be (pin g) (hw w))) (hw w)))])
         (isr_service_installed w) (s_gpio_instance w) (objs w)).
Proof.
  intros Hg. rewrite (gpio_toggle_run be self g w Hg).
  unfold bind. rewrite (gpio_write_run be self g); [| exact Hg].
  rewrite uint32_cast_invert. unfold ret, emit, set_hw. cbn.
  by rewrite <- List.app_assoc.
Qed.

(** C1 (amended): for every pin object, whatever its mode and whatever
    its [_act_state] field holds, [gpio_toggle] reads the level of the
    pin's line from the hardware and writes the logical inverse of that
    reading with one level write: high if the reading is low, low
    otherwise.  Nothing else changes, and the [_act_state] field plays no
    part. *)
Theorem gpio_toggle_inverts_hardware_read (be : Backend) self g (w : world be) :
  objs w !! self = Some g ->
  gpio_toggle be self w =
    Done tt
      (mk_world be
         (snd (be_gpio_set_level be (pin g)
                 (invert (be_gpio_get_level be (pin g) (hw w))) (hw w)))
         (trace w ++
            [Ev_call (Call_gpio_get_level (pin g)) (be_gpio_get_level be (pin g) (hw w));
             Ev_call (Call_gpio_set_level (pin g)
                        (invert (be_gpio_get_level be (pin g) (hw w))))
                     (fst (be_gpio_set_level be (pin g)
                             (invert (be_gpio_get_level be (pin g) (hw w))) (hw w)))])
         (isr_service_installed w) (s_gpio_instance w) (objs w)).
Proof. exact (gpio_toggle_full_run be self g w). Qed.

Lemma gpio_toggle_inverts_hardware_read_witness :
  objs boot0 !! 32 = Some lamp /\
  gpio_toggle Sim.backend 32 boot0 =
    Done tt
      (mk_world Sim.backend (snd (Sim.gpio_set_level D4 GPIO_STATE_HIGH Sim.reset))
         [Ev_call (Call_gpio_get_level D4) GPIO_STATE_LOW;
          Ev_call (Call_gpio_set_level D4 GPIO_STATE_HIGH) ESP_OK]
         false NULL heap0).
Proof.
  assert (H : objs boot0 !! 32 = Some lamp) by (vm_compute; reflexivity).
  split; [exact H |].
  exact (gpio_toggle_inverts_hardware_read Sim.backend 32 lamp boot0 H).
Defined.

(** ** Write *)



(** ** The simulated backend holds its lines *)

Lemma pins_of_mask_single (p : Z) :
  0 <= p < 64 -> Sim.pins_of_mask (Z.shiftl 1 p) = [p].
Proof.
  intros Hp. unfold Sim.pins_of_mask.
  assert (Hn : exists n, (n < 64)%nat /\ p = Z.of_nat n).
  { exists (Z.to_nat p). split; lia. }
  destruct Hn as (n & Hn & ->). clear Hp.
  do 64 (destruct n as [| n]; [vm_compute; reflexivity |]). lia.
Qed.

Lemma filter_none {A} (f : A -> bool) (l : list A) :
  (forall x, In x l -> f x = false) -> List.filter f l = [].
Proof.
  induction l as [| a l IH]; intros H; [done |].
  cbn [List.filter]. rewrite (H a (or_introl eq_refl)).
  apply IH. intros x Hx. apply H. by right.
Qed.

Lemma pins_of_mask_out_of_range (p : Z) :
  ~ 0 <= p < 64 -> Sim.pins_of_mask (Z.shiftl 1 p) = [].
Proof.
  intros Hp. unfold Sim.pins_of_mask. apply filter_none.
  intros x (n & <- & Hn%List.in_seq)%List.in_map_iff.
  rewrite Z.shiftl_1_l.
  destruct (decide (p < 0)) as [Hneg | Hpos].
  - rewrite Z.pow_neg_r by lia. apply Z.bits_0.
  - rewrite Z.pow2_bits_eqb by lia. apply Z.eqb_neq. lia.
Qed.

Lemma sim_output_config_accepted (p : Z) (h h' : Sim.hw) :
  Sim.gpio_config (output_config (Z.shiftl 1 p)) h = (ESP_OK, h') ->
  Sim.valid_output_gpio p = true.
Proof.
  unfold Sim.gpio_config. cbn [pin_bit_mask output_config mode].
  destruct (decide (0 <= p < 64)) as [Hp | Hp].
  - rewrite (pins_of_mask_single p Hp). cbn [List.forallb].
    unfold Sim.pin_accepts. cbn [Sim.drives_output].
    destruct (Sim.valid_output_gpio p); [done |].
    cbn [andb]. intros H. by simplify_eq.
  - rewrite (pins_of_mask_out_of_range p Hp). intros H. by simplify_eq.
Qed.

Lemma sim_line_faithful : line_faithful Sim.backend.
Proof.
  split.
  - intros p l h. cbn [Sim.backend be_gpio_set_level be_gpio_get_level].
    unfold Sim.gpio_set_level, Sim.gpio_get_level.
    destruct (Sim.valid_output_gpio p); cbn [fst snd Sim.line]; [| done].
    intros _. by rewrite lookup_insert_eq.
  - intros p l h h'. cbn [Sim.backend be_gpio_config be_gpio_set_level].
    intros H%sim_output_config_accepted.
    unfold Sim.gpio_set_level. by rewrite H.
  - intros flags p h.
    cbn [Sim.backend be_gpio_install_isr_service be_gpio_get_level].
    unfold Sim.gpio_install_isr_service, Sim.gpio_get_level.
    by destruct (Sim.service h).
Qed.


(** ** Mode checks *)

(** C3, as stated, fails.  With the LED (output) and the switch (input)
    both initialised, writing to the input pin returns [ESP_OK] and
    performs a level write on its line, and enabling the interrupt of the
    output pin returns [ESP_OK] and performs the unmask call. *)
Lemma operations_run_in_the_wrong_mode :
  returns (run Sim.backend [Op_init 16; Op_init 48] boot0) = Some tt /\
  _mode <$> objs (after [Op_init 16; Op_init 48]) !! 48 = Some GPIO_MODE_INPUT /\
  returns (gpio_write Sim.backend 48 GPIO_STATE_HIGH (after [Op_init 16; Op_init 48])) =
    Some ESP_OK /\
  trace (world_of (gpio_write Sim.backend 48 GPIO_STATE_HIGH (after [Op_init 16; Op_init 48]))
                  boot0) =
    trace (after [Op_init 16; Op_init 48]) ++
      [Ev_call (Call_gpio_set_level D5 GPIO_STATE_HIGH) ESP_OK] /\
  _mode <$> objs (after [Op_init 16; Op_init 48]) !! 16 = Some GPIO_MODE_OUTPUT /\
  returns (gpio_enable_isr Sim.backend 16 (after [Op_init 16; Op_init 48])) = Some ESP_OK /\
  trace (world_of (gpio_enable_isr Sim.backend 16 (after [Op_init 16; Op_init 48])) boot0) =
    trace (after [Op_init 16; Op_init 48]) ++
      [Ev_call (Call_gpio_intr_enable BUILTIN_LED) ESP_OK].
Proof. repeat split; vm_compute; reflexivity. Qed.

(** C3 (amended): the operations do not look at the pin's mode, and
    there is no wrong-mode error.  For every pin object, whatever its
    mode, [gpio_write] performs one level write and returns [ESP_OK],
    [gpio_toggle] performs a level read and a level write,
    [gpio_enable_isr] and [gpio_disable_isr] perform the unmask and mask
    call and return its status. *)
Theorem operations_do_not_check_mode (be : Backend) self g (w : world be) :
  objs w !! self = Some g ->
  (forall s,
     exists w',
       gpio_write be self s w = Done ESP_OK w' /\
       extends w w'
         [Ev_call (Call_gpio_set_level (pin g) (uint32_cast s))
                  (fst (be_gpio_set_level be (pin g) (uint32_cast s) (hw w)))]) /\
  (exists w',
     gpio_toggle be self w = Done tt w' /\
     extends w w'
       [Ev_call (Call_gpio_get_level (pin g)) (be_gpio_get_level be (pin g) (hw w));
        Ev_call (Call_gpio_set_level (pin g) (invert (be_gpio_get_level be (pin g) (hw w))))
                (fst (be_gpio_set_level be (pin g)
                        (invert (be_gpio_get_level be (pin g) (hw w))) (hw w)))]) /\
  (exists w',
     gpio_enable_isr be self w = Done (fst (be_gpio_intr_enable be (pin g) (hw w))) w' /\
     extends w w'
       [Ev_call (Call_gpio_intr_enable (pin g)) (fst (be_gpio_intr_enable be (pin g) (hw w)))]) /\
  (exists w',
     gpio_disable_isr be self w = Done (fst (be_gpio_intr_disable be (pin g) (hw w))) w' /\
     extends w w'
       [Ev_call (Call_gpio_intr_disable (pin g)) (fst (be_gpio_intr_disable be (pin g) (hw w)))]).
Proof.
  intros Hg. repeat split.
  - intros s. rewrite (gpio_write_run be self g s w Hg). by eexists.
  - rewrite (gpio_toggle_full_run be self g w Hg). by eexists.
  - rewrite (gpio_enable_isr_run be self g w Hg). by eexists.
  - rewrite (gpio_disable_isr_run be self g w Hg). by eexists.
Qed.

Lemma operations_do_not_check_mode_witness :
  exists w',
    gpio_write Sim.backend 48 GPIO_STATE_HIGH boot0 = Done ESP_OK w' /\
    extends boot0 w' [Ev_call (Call_gpio_set_level D5 GPIO_STATE_HIGH) ESP_OK].
Proof.
  assert (H : objs boot0 !! 48 = Some switch) by (vm_compute; reflexivity).
  exact (proj1 (operations_do_not_check_mode Sim.backend 48 switch boot0 H) GPIO_STATE_HIGH).
Defined.

(** ** Initialisation, block by block *)

Section Init.

Variable be : Backend.

Lemma gpio_init_impl_cases self g (w : world be) :
  objs w !! self = Some g ->
  gpio_init_impl be self w =
    match init_switch be self (wired g) (after_prologue self g w) with
    | Done _ w2 => init_install be w2
    | Aborted w2 => Aborted w2
    | Fault => Fault
    end.
Proof. intros Hg. by rewrite (gpio_init_impl_blocks be self g w Hg). Qed.

(** What the [switch] leaves behind, with respect to the state before
    the call. *)
Lemma after_switch self g (w w2 : world be) :
  final_world (init_switch be self (wired g) (after_prologue self g w)) = Some w2 ->
  isr_service_installed w2 = isr_service_installed w /\
  objs w2 = <[self := wired g]> (objs w) /\
  exists evs, extends w w2 evs /\ install_calls evs = 0%nat.
Proof.
  intros H.
  destruct (init_switch_no_install be self (wired g) _ _ H) as [Hf Hev].
  pose proof (init_switch_same_objs be self (wired g) _ _ H) as Ho.
  by repeat split.
Qed.

(** The outcome of [gpio_init_impl] on an object: it aborted in the
    [switch]; or the service was installed already; or the installation
    was called, and succeeded or aborted the program. *)
Lemma gpio_init_impl_spec self g (w w' : world be) :
  objs w !! self = Some g ->
  final_world (gpio_init_impl be self w) = Some w' ->
  objs w' = <[self := wired g]> (objs w) /\
  exists evs,
    extends w w' evs /\
    ((gpio_init_impl be self w = Aborted w' /\
      isr_service_installed w' = isr_service_installed w /\
      install_calls evs = 0%nat) \/
     (gpio_init_impl be self w = Done tt w' /\
      isr_service_installed w = true /\ isr_service_installed w' = true /\
      install_calls evs = 0%nat) \/
     (isr_service_installed w = false /\
      exists evs0 r,
        evs = evs0 ++ [Ev_call (Call_gpio_install_isr_service GPIO_ISR_SERVICE_DEFAULT_FLAGS) r] /\
        install_calls evs0 = 0%nat /\
        ((r = ESP_OK /\ gpio_init_impl be self w = Done tt w' /\
          isr_service_installed w' = true) \/
         (r <> ESP_OK /\ gpio_init_impl be self w = Aborted w' /\
          isr_service_installed w' = false)))).
Proof.
  intros Hg. rewrite (gpio_init_impl_cases self g w Hg).
  destruct (init_switch be self (wired g) (after_prologue self g w))
    as [u w2 | w2 |] eqn:E; [| | done].
  - destruct (after_switch self g w w2) as (Hf & Ho & evs & Hev & Hc).
    { by rewrite E. }
    rewrite init_install_run. unfold extends in *.
    destruct (isr_service_installed w2) eqn:F.
    + cbn. intros ?; simplify_eq. split; [done |].
      exists (evs ++ [Ev_log LOG_INFO "ISR service already installed" []]).
      split; [cbn; by rewrite Hev, <- List.app_assoc |].
      right; left. repeat split; [done | done |].
      rewrite install_calls_app, Hc. reflexivity.
    + cbn zeta.
      destruct (be_gpio_install_isr_service be GPIO_ISR_SERVICE_DEFAULT_FLAGS (hw w2))
        as [r h]. cbn [fst snd].
      destruct (r =? ESP_OK) eqn:R; cbn; intros ?; simplify_eq; (split; [done |]).
      * apply Z.eqb_eq in R. subst r.
        eexists. split; [cbn; by rewrite Hev, <- List.app_assoc |].
        right; right. split; [done |]. exists evs, ESP_OK. split; [done |].
        split; [done |]. left. by repeat split.
      * apply Z.eqb_neq in R.
        eexists. split; [cbn; by rewrite Hev, <- List.app_assoc |].
        right; right. split; [done |]. exists evs, r. split; [done |].
        split; [done |]. right. by repeat split.
  - cbn. intros ?; simplify_eq.
    destruct (after_switch self g w w') as (Hf & Ho & evs & Hev & Hc).
    { by rewrite E. }
    split; [done |]. exists evs. split; [done |]. left. by repeat split.
Qed.

End Init.

(** ** Installation of the dispatch service *)

(** C4, as stated, fails.  From boot, the first initialisation calls the
    platform installation primitive when the pin is an output, when it is
    an input with no handler, and when its mode is not a valid one. *)
Lemma install_not_only_for_input_with_callback :
  (_mode led = GPIO_MODE_OUTPUT /\
   returns (gpio_init_impl Sim.backend 16 boot0) = Some tt /\
   install_calls (trace (after [Op_init 16])) = 1%nat) /\
  (_mode switch = GPIO_MODE_INPUT /\ isr_handler switch = fn_null /\
   returns (gpio_init_impl Sim.backend 48 boot0) = Some tt /\
   install_calls (trace (after [Op_init 48])) = 1%nat) /\
  (valid_mode (_mode unset) = false /\
   returns (gpio_init_impl Sim.backend 96 boot0) = Some tt /\
   install_calls (trace (after [Op_init 96])) = 1%nat /\
   trace (after [Op_init 96]) =
     [Ev_log LOG_ERROR "Invalid GPIO mode" [];
      Ev_call (Call_gpio_install_isr_service GPIO_ISR_SERVICE_DEFAULT_FLAGS) ESP_OK]).
Proof. repeat split; vm_compute; reflexivity. Qed.

(** C4 (amended): the dispatch service is installed by the first
    [gpio_init_impl] call that gets past its mode-specific step, whatever
    the pin's mode and whether or not it has a handler.  A call that
    returns while [isr_service_installed] is false has called the
    platform installation exactly once, as its last backend call, and
    has set the flag; a call made while the flag is set calls no
    installation. *)
Theorem init_installs_whatever_the_mode (be : Backend) self g (w w' : world be) :
  objs w !! self = Some g ->
  gpio_init_impl be self w = Done tt w' ->
  isr_service_installed w' = true /\
  if isr_service_installed w
  then exists evs, extends w w' evs /\ install_calls evs = 0%nat
  else exists evs,
         extends w w'
           (evs ++ [Ev_call (Call_gpio_install_isr_service GPIO_ISR_SERVICE_DEFAULT_FLAGS)
                            ESP_OK]) /\
         install_calls evs = 0%nat.
Proof.
  intros Hg Hrun.
  destruct (gpio_init_impl_spec be self g w w' Hg) as (_ & evs & Hev & Hcases).
  { by rewrite Hrun. }
  destruct Hcases as [(Ha & _) | [(_ & Hf & Hf' & Hc) | (Hf & evs0 & r & -> & Hc & Hr)]].
  - congruence.
  - rewrite Hf. split; [done |]. by exists evs.
  - rewrite Hf. destruct Hr as [(-> & _ & Hf') | (_ & Ha & _)]; [| congruence].
    split; [done |]. by exists evs0.
Qed.

Lemma init_installs_whatever_the_mode_witness :
  isr_service_installed (after [Op_init 96]) = true /\
  exists evs,
    extends boot0 (after [Op_init 96])
      (evs ++ [Ev_call (Call_gpio_install_isr_service GPIO_ISR_SERVICE_DEFAULT_FLAGS) ESP_OK]) /\
    install_calls evs = 0%nat.
Proof.
  assert (Hg : objs boot0 !! 96 = Some unset) by (vm_compute; reflexivity).
  assert (Hrun : gpio_init_impl Sim.backend 96 boot0 = Done tt (after [Op_init 96])).
  { unfold after. cbn [run step]. unfold bind at 1.
    rewrite (returns_Done (gpio_init_impl Sim.backend 96 boot0) tt boot0)
      by (vm_compute; reflexivity).
    reflexivity. }
  exact (init_installs_whatever_the_mode Sim.backend 96 unset boot0 _ Hg Hrun).
Defined.

(** ** At most one installation *)

Section Once.

Variable be : Backend.

Lemma discard_no_install {A} (m : M be A) :
  preserves no_install m -> preserves no_install (discard m).
Proof. intros Hm. unfold discard. frame. exact Hm. Qed.

Lemma no_install_keeps_count (w w' : world be) :
  no_install w w' ->
  isr_service_installed w' = isr_service_installed w /\
  install_calls (trace w') = install_calls (trace w).
Proof.
  intros [Hf (evs & Hev & Hc)]. split; [done |].
  unfold extends in Hev. rewrite Hev, install_calls_app. lia.
Qed.

(** One driver call: it keeps the count in step with the flag when it
    returns, never brings the count above one, and once the flag is set
    it stays set and no installation is called. *)
Lemma step_flag_counts (o : op) (w w' : world be) :
  flag_counts w ->
  final_world (step be o w) = Some w' ->
  (install_calls (trace w') <= 1)%nat /\
  (returns (step be o w) = Some tt -> flag_counts w') /\
  (isr_service_installed w = true ->
   isr_service_installed w' = true /\
   install_calls (trace w') = install_calls (trace w)).
Proof.
  intros Hinv Hfin.
  assert (Hquiet : no_install w w' ->
    (install_calls (trace w') <= 1)%nat /\
    (returns (step be o w) = Some tt -> flag_counts w') /\
    (isr_service_installed w = true ->
     isr_service_installed w' = true /\
     install_calls (trace w') = install_calls (trace w))).
  { intros [Hf Hc]%no_install_keeps_count. unfold flag_counts in *.
    rewrite Hf, Hc, Hinv. repeat split; try done.
    destruct (isr_service_installed w); lia. }
  destruct o as [self | self s | self | self | self | self]; cbn [step] in *;
    try (apply Hquiet; revert Hfin; apply discard_no_install || idtac;
         first [ apply gpio_write_no_install | apply gpio_read_no_install
               | apply gpio_toggle_no_install | apply gpio_disable_isr_no_install
               | apply gpio_enable_isr_no_install ]).
  destruct (objs w !! self) as [g |] eqn:Hg;
    [| by rewrite (gpio_init_impl_dangling be self w Hg) in Hfin].
  destruct (gpio_init_impl_spec be self g w w' Hg Hfin) as (_ & evs & Hev & Hcases).
  unfold flag_counts, extends in *. rewrite Hev, install_calls_app, Hinv.
  destruct Hcases as [(Ha & Hf & Hc) | [(Hd & Hf & Hf' & Hc) | (Hf & evs0 & r & -> & Hc & Hr)]].
  - rewrite Ha, Hf, Hc. cbn. repeat split; try done; try lia.
    destruct (isr_service_installed w); lia.
  - rewrite Hf, Hf', Hc. repeat split; try done; lia.
  - rewrite Hf, install_calls_app, Hc.
    destruct Hr as [(-> & Hd & Hf') | (Hr & Ha & Hf')]; rewrite ?Hd, ?Ha, Hf'; cbn;
      repeat split; try done; lia.
Qed.

Lemma run_flag_counts (os : list op) : forall (w w' : world be),
  flag_counts w ->
  final_world (run be os w) = Some w' ->
  (install_calls (trace w') <= 1)%nat /\
  (returns (run be os w) = Some tt -> flag_counts w') /\
  (isr_service_installed w = true ->
   isr_service_installed w' = true /\
   install_calls (trace w') = install_calls (trace w)).
Proof.
  induction os as [| o os IH]; intros w w' Hinv Hfin.
  - cbn in Hfin. simplify_eq. cbn. unfold flag_counts in *.
    repeat split; try done. rewrite Hinv. destruct (isr_service_installed w'); lia.
  - cbn [run] in *. unfold bind in *.
    destruct (step be o w) as [u w1 | w1 |] eqn:E; [| | done].
    + destruct (step_flag_counts o w w1 Hinv) as (_ & Hinv1 & Hkeep1).
      { by rewrite E. }
      rewrite E in Hinv1. destruct u.
      destruct (IH w1 w' (Hinv1 eq_refl) Hfin) as (Hle & Hret & Hkeep).
      split; [done |]. split; [done |].
      intros Hf. destruct (Hkeep1 Hf) as [Hf1 Hc1].
      destruct (Hkeep Hf1) as [Hf2 Hc2]. split; [done | congruence].
    + cbn in Hfin. simplify_eq.
      destruct (step_flag_counts o w w' Hinv) as (Hle & _ & Hkeep1).
      { by rewrite E. }
      split; [done |]. split; [| done]. cbn. intros; simplify_eq.
Qed.

End Once.

(** C5: the installed flag starts false; over any sequence of driver
    calls from boot, cut at any point, the platform installation
    primitive has been invoked at most once; when the first part of the
    sequence has returned, the flag is set exactly if the installation
    was invoked; and once the flag is set, the rest of the sequence
    leaves it set and invokes no installation. *)
Theorem install_at_most_once (be : Backend) (h : hw_t be) (heap : gmap Z gpio_t)
    (os1 os2 : list op) (w1 w2 : world be) :
  run be os1 (boot be h heap) = Done tt w1 ->
  final_world (run be os2 w1) = Some w2 ->
  isr_service_installed (boot be h heap) = false /\
  (install_calls (trace w1) <= 1)%nat /\
  (install_calls (trace w2) <= 1)%nat /\
  (isr_service_installed w1 = true <-> install_calls (trace w1) = 1%nat) /\
  (isr_service_installed w1 = true ->
   isr_service_installed w2 = true /\
   install_calls (trace w2) = install_calls (trace w1)).
Proof.
  intros H1 H2.
  assert (Hboot : flag_counts (boot be h heap)) by reflexivity.
  destruct (run_flag_counts be os1 _ w1 Hboot) as (Hle1 & Hinv1 & _).
  { by rewrite H1. }
  rewrite H1 in Hinv1. specialize (Hinv1 eq_refl).
  destruct (run_flag_counts be os2 w1 w2 Hinv1 H2) as (Hle2 & _ & Hkeep).
  repeat split; try done.
  - intros Hf. unfold flag_counts in Hinv1. by rewrite Hf in Hinv1.
  - intros Hc. unfold flag_counts in Hinv1. rewrite Hc in Hinv1.
    by destruct (isr_service_installed w1).
  - by apply Hkeep.
  - by apply Hkeep.
Qed.

Lemma install_at_most_once_witness :
  isr_service_installed boot0 = false /\
  (install_calls (trace two_inits) <= 1)%nat /\
  (install_calls (trace five_calls) <= 1)%nat /\
  (isr_service_installed two_inits = true <-> install_calls (trace two_inits) = 1%nat) /\
  (isr_service_installed two_inits = true ->
   isr_service_installed five_calls = true /\
   install_calls (trace five_calls) = install_calls (trace two_inits)).
Proof.
  apply (install_at_most_once Sim.backend Sim.reset heap0
           [Op_init 96; Op_init 16] [Op_init 64; Op_toggle 16; Op_init 48]).
  - apply returns_Done. vm_compute; reflexivity.
  - apply (returns_final _ tt). vm_compute; reflexivity.
Defined.

(** ** The handler argument *)

Lemma init_switch_input_run (be : Backend) self g (w : world be) :
  _mode g = GPIO_MODE_INPUT ->
  init_switch be self g w =
    if (0 <=? uint8_cast (pin g)) && (uint8_cast (pin g) <? 64) then
      let cfg := input_config (Z.shiftl 1 (uint8_cast (pin g))) in
      let ch := be_gpio_config be cfg (hw w) in
      let w1 := emit be (Ev_call (Call_gpio_config cfg) (fst ch)) (set_hw be (snd ch) w) in
      if fst ch =? ESP_OK then
        let w2 := emit be (Ev_log LOG_INFO "Configured pin %d as input" [pin g]) w1 in
        if is_null_fn (isr_handler g) then Done tt w2
        else
          let ah := be_gpio_isr_handler_add be (pin g) (isr_handler g) NULL (snd ch) in
          let w3 := emit be (Ev_call (Call_gpio_isr_handler_add (pin g) (isr_handler g) NULL)
                                     (fst ah)) (set_hw be (snd ah) w2) in
          if fst ah =? ESP_OK
          then Done tt (emit be (Ev_log LOG_INFO "Configured ISR handler for pin %d" [pin g]) w3)
          else Aborted w3
      else Aborted w1
    else Fault.
Proof.
  intros Hm. unfold init_switch. rewrite Hm.
  unfold gpio_set_config_input. unfold bind at 1 2. unfold shl_1ULL.
  destruct ((0 <=? uint8_cast (pin g)) && (uint8_cast (pin g) <? 64)); [| done].
  unfold bind at 1. unfold ESP_ERROR_CHECK at 1. unfold gpio_config, call.
  destruct (be_gpio_config be _ (hw w)) as [r0 h0].
  cbn [fst snd]. destruct (r0 =? ESP_OK); [| done].
  unfold bind at 1. unfold ESP_LOGI at 1.
  destruct (is_null_fn (isr_handler g)); [done |].
  unfold bind at 1. unfold ESP_ERROR_CHECK, gpio_isr_handler_add, call. cbn [hw emit set_hw].
  destruct (be_gpio_isr_handler_add be (pin g) (isr_handler g) NULL h0) as [r1 h1].
  cbn [fst snd]. by destruct (r1 =? ESP_OK).
Qed.

(** Whatever the backend and whatever the object's [isr_handler_arg]: an
    initialisation of an input pin with a handler that returns has made
    exactly one handler registration, and its argument is [NULL]. *)
Lemma handler_registered_with_null (be : Backend) self g (w w' : world be) :
  objs w !! self = Some g ->
  _mode g = GPIO_MODE_INPUT ->
  is_null_fn (isr_handler g) = false ->
  gpio_init_impl be self w = Done tt w' ->
  exists pre post,
    extends w w'
      (pre ++ [Ev_call (Call_gpio_isr_handler_add (pin g) (isr_handler g) NULL) ESP_OK] ++ post) /\
    List.filter is_handler_add pre = [] /\
    List.filter is_handler_add post = [].
Proof.
  intros Hg Hm Hh. rewrite (gpio_init_impl_cases be self g w Hg).
  rewrite (init_switch_input_run be self (wired g)); [| exact Hm].
  cbn [pin isr_handler wired with_set_state with_get_state]. rewrite Hh.
  destruct ((0 <=? uint8_cast (pin g)) && (uint8_cast (pin g) <? 64)); [| done].
  cbn zeta. cbn [hw after_prologue].
  destruct (be_gpio_config be _ (hw w)) as [r0 h0].
  cbn [fst snd]. destruct (r0 =? ESP_OK) eqn:R0; [| done].
  apply Z.eqb_eq in R0. subst r0.
  destruct (be_gpio_isr_handler_add be (pin g) (isr_handler g) NULL h0) as [r1 h1].
  cbn [fst snd]. destruct (r1 =? ESP_OK) eqn:R1; [| done].
  apply Z.eqb_eq in R1. subst r1.
  rewrite init_install_run. cbn [isr_service_installed emit set_hw hw after_prologue].
  destruct (isr_service_installed w).
  - intros ?; simplify_eq. eexists [_; _], _.
    split; [solve_extends |]. by split.
  - cbn zeta.
    destruct (be_gpio_install_isr_service be GPIO_ISR_SERVICE_DEFAULT_FLAGS h1) as [r h].
    cbn [fst snd]. destruct (r =? ESP_OK); [| done].
    intros ?; simplify_eq. eexists [_; _], _.
    split; [solve_extends |]. by split.
Qed.

(** C6 does not hold of the code.  The button object carries handler 7
    and a non-null argument; once the service is installed (by the LED's
    initialisation), initialising the button registers the handler with
    a null argument, which is what an edge on the pin then passes to the
    handler.  The object's [isr_handler_arg] field is not read. *)
Lemma init_registers_null_argument :
  _mode button = GPIO_MODE_INPUT /\
  isr_handler button = fn_user 7 /\
  isr_handler_arg button = 4096 /\
  returns (run Sim.backend [Op_init 16; Op_init 64] boot0) = Some tt /\
  List.filter is_handler_add (trace led_then_button) =
    [Ev_call (Call_gpio_isr_handler_add D5 (fn_user 7) NULL) ESP_OK] /\
  Sim.on_edge D5 (hw led_then_button) = Some (fn_user 7, NULL) /\
  isr_handler_arg <$> objs led_then_button !! 64 = Some 4096.
Proof. repeat split; vm_compute; reflexivity. Qed.

(** ** Backend failures *)

(** Whatever the backend answers to the level write, [gpio_write]
    returns [ESP_OK]. *)
Lemma gpio_write_always_ok (be : Backend) self g s (w : world be) :
  objs w !! self = Some g ->
  returns (gpio_write be self s w) = Some ESP_OK.
Proof. intros Hg. by rewrite (gpio_write_run be self g s w Hg). Qed.

(** C7 does not hold of the code.  GPIO 34 is input only, so the
    platform rejects a level write on it; [gpio_write] on the initialised
    sensor object makes that call, gets the error status back, and
    returns [ESP_OK]. *)
Lemma gpio_write_hides_backend_failure :
  returns (run Sim.backend [Op_init 80] boot0) = Some tt /\
  pin <$> objs sensor_ready !! 80 = Some D34 /\
  returns (gpio_write Sim.backend 80 GPIO_STATE_HIGH sensor_ready) = Some ESP_OK /\
  trace (world_of (gpio_write Sim.backend 80 GPIO_STATE_HIGH sensor_ready) boot0) =
    trace sensor_ready ++
      [Ev_call (Call_gpio_set_level D34 GPIO_STATE_HIGH) ESP_ERR_INVALID_ARG] /\
  ESP_ERR_INVALID_ARG <> ESP_OK.
Proof. repeat split; vm_compute; (reflexivity || discriminate). Qed.

(** ** Invalid modes *)

(** C8, as stated, fails.  An object whose mode is [GPIO_MODE_DISABLE]
    (a zeroed [_mode] field) is initialised from boot: the call returns
    normally, with the one value its return type has, and it went on to
    install the dispatch service and set the flag. *)
Lemma invalid_mode_returns_normally :
  valid_mode (_mode unset) = false /\
  returns (gpio_init_impl Sim.backend 96 boot0) = Some tt /\
  trace (world_of (gpio_init_impl Sim.backend 96 boot0) boot0) =
    [Ev_log LOG_ERROR "Invalid GPIO mode" [];
     Ev_call (Call_gpio_install_isr_service GPIO_ISR_SERVICE_DEFAULT_FLAGS) ESP_OK] /\
  isr_service_installed (world_of (gpio_init_impl Sim.backend 96 boot0) boot0) = true /\
  get_state <$> objs (world_of (gpio_init_impl Sim.backend 96 boot0) boot0) !! 96 =
    Some fn_gpio_read.
Proof. repeat split; vm_compute; reflexivity. Qed.

(** C8 (amended): [gpio_init_impl] returns nothing, so an invalid mode is
    not reported to the caller.  For every object whose mode is neither
    input nor output the call has a defined outcome; its first new event
    is the error log line "Invalid GPIO mode"; it makes no pin
    configuration, no handler registration and no level write; it still
    assigns [get_state] and [set_state]; and when the dispatch service is
    installed already it returns normally. *)
Theorem invalid_mode_is_only_logged (be : Backend) self g (w : world be) :
  objs w !! self = Some g ->
  valid_mode (_mode g) = false ->
  exists w' evs,
    final_world (gpio_init_impl be self w) = Some w' /\
    extends w w' (Ev_log LOG_ERROR "Invalid GPIO mode" [] :: evs) /\
    List.forallb (fun e => negb (is_pin_setup e)) evs = true /\
    objs w' = <[self := wired g]> (objs w) /\
    (isr_service_installed w = true -> gpio_init_impl be self w = Done tt w').
Proof.
  intros Hg Hm. rewrite (gpio_init_impl_cases be self g w Hg).
  assert (Hsw : init_switch be self (wired g) (after_prologue self g w) =
                Done tt (emit be (Ev_log LOG_ERROR "Invalid GPIO mode" [])
                              (after_prologue self g w))).
  { unfold init_switch. cbn [_mode wired with_set_state with_get_state].
    by destruct (_mode g). }
  rewrite Hsw, init_install_run. cbn [isr_service_installed emit after_prologue].
  destruct (isr_service_installed w) eqn:F.
  - eexists _, [_]. split; [reflexivity |]. split; [solve_extends |]. by repeat split.
  - cbn zeta.
    destruct (be_gpio_install_isr_service be GPIO_ISR_SERVICE_DEFAULT_FLAGS _) as [r h].
    cbn [fst snd].
    destruct (r =? ESP_OK); eexists _, [_];
      (split; [reflexivity |]); (split; [solve_extends |]); by repeat split.
Qed.

Lemma invalid_mode_is_only_logged_witness :
  exists w' evs,
    final_world (gpio_init_impl Sim.backend 96 boot0) = Some w' /\
    extends boot0 w' (Ev_log LOG_ERROR "Invalid GPIO mode" [] :: evs) /\
    List.forallb (fun e => negb (is_pin_setup e)) evs = true /\
    objs w' = <[96 := wired unset]> (objs boot0) /\
    (isr_service_installed boot0 = true -> gpio_init_impl Sim.backend 96 boot0 = Done tt w').
Proof.
  apply (invalid_mode_is_only_logged Sim.backend 96 unset boot0).
  - vm_compute; reflexivity.
  - reflexivity.
Defined.

(** ** Output pins start at their declared state *)

Lemma init_switch_output_run (be : Backend) self g (w : world be) :
  _mode g = GPIO_MODE_OUTPUT ->
  objs w !! self = Some g ->
  init_switch be self g w =
    if (0 <=? pin g) && (pin g <? 64) then
      let ch := be_gpio_config be (output_config (Z.shiftl 1 (pin g))) (hw w) in
      let w1 := emit be (Ev_call (Call_gpio_config (output_config (Z.shiftl 1 (pin g))))
                                 (fst ch)) (set_hw be (snd ch) w) in
      if fst ch =? ESP_OK then
        let sh := be_gpio_set_level be (pin g) (uint32_cast (_act_state g)) (snd ch) in
        Done tt
          (emit be (Ev_call (Call_gpio_set_level (pin g) (uint32_cast (_act_state g))) (fst sh))
             (set_hw be (snd sh)
                (emit be (Ev_log LOG_INFO "Configured pin %d as output" [pin g]) w1)))
      else Aborted w1
    else Fault.
Proof.
  intros Hm Hg. unfold init_switch. rewrite Hm.
  unfold gpio_set_config_output. unfold bind at 1 2. unfold shl_1ULL.
  destruct ((0 <=? pin g) && (pin g <? 64)); [| done].
  unfold bind at 1. unfold ESP_ERROR_CHECK, gpio_config, call.
  destruct (be_gpio_config be (output_config (Z.shiftl 1 (pin g))) (hw w)) as [r0 h0].
  cbn [fst snd]. destruct (r0 =? ESP_OK); [| done].
  unfold bind, ESP_LOGI, ret.
  rewrite (gpio_write_run be self g); [| exact Hg]. reflexivity.
Qed.




(** The same initialisation on the platform whose output-only pads read
    low: that platform does not hold its lines in the sense above. *)
Lemma pad_not_line_faithful : ~ line_faithful Pad.backend.
Proof.
  intros Hlf.
  pose proof (lf_set_get Pad.backend Hlf D4 GPIO_STATE_HIGH
                (hw Pad.lamp_ready)) as H.
  vm_compute in H. specialize (H eq_refl). discriminate H.
Qed.

(** ** The function-pointer fields *)

(** C10: every initialisation call that reaches an outcome, returning or
    aborting, has assigned the driver's read and write functions to the
    object's [get_state] and [set_state] fields and has left its [toggle]
    field, like its other fields and the other objects, as it was; so a
    [toggle] field that did not hold the driver's toggle function before
    the call does not hold it after. *)
Theorem init_leaves_toggle_unassigned (be : Backend) self g (w w' : world be) :
  objs w !! self = Some g ->
  final_world (gpio_init_impl be self w) = Some w' ->
  exists g',
    objs w' !! self = Some g' /\
    get_state g' = fn_gpio_read /\
    set_state g' = fn_gpio_write /\
    toggle g' = toggle g /\
    (toggle g <> fn_gpio_toggle -> toggle g' <> fn_gpio_toggle) /\
    init g' = init g /\
    g' = with_set_state fn_gpio_write (with_get_state fn_gpio_read g) /\
    (forall p, p <> self -> objs w' !! p = objs w !! p).
Proof.
  intros Hg Hfin.
  destruct (gpio_init_impl_spec be self g w w' Hg Hfin) as (Ho & _).
  exists (wired g). rewrite Ho. repeat split; try done.
  - apply lookup_insert_eq.
  - intros p Hp. by apply lookup_insert_ne.
Qed.

Lemma init_leaves_toggle_unassigned_witness :
  exists g',
    objs (after [Op_init 16]) !! 16 = Some g' /\
    get_state g' = fn_gpio_read /\
    set_state g' = fn_gpio_write /\
    toggle g' = toggle led /\
    (toggle led <> fn_gpio_toggle -> toggle g' <> fn_gpio_toggle) /\
    init g' = init led /\
    g' = with_set_state fn_gpio_write (with_get_state fn_gpio_read led) /\
    (forall p, p <> 16 -> objs (after [Op_init 16]) !! p = objs boot0 !! p).
Proof.
  apply (init_leaves_toggle_unassigned Sim.backend 16 led boot0).
  - vm_compute; reflexivity.
  - unfold after. cbn [run step]. unfold bind at 1.
    rewrite (returns_Done (gpio_init_impl Sim.backend 16 boot0) tt boot0)
      by (vm_compute; reflexivity).
    reflexivity.
Defined.

(** ** The simulated platform agrees *)

(** Over the four initialisations of [two_inits] and [five_calls] the
    simulated platform saw its installation primitive invoked once. *)
Example sim_installed_once :
  Sim.installs (hw two_inits) = 1%nat /\ Sim.installs (hw five_calls) = 1%nat.
Proof. split; vm_compute; reflexivity. Qed.

(** * Further properties of the driver *)

(** ** Toggling twice *)

(** On a backend whose lines hold what was written and on a pin that
    accepts level writes, a toggle turns a line that reads as a logical
    level [v] into one that reads as the inverse of [v], and a second
    toggle brings it back to [v]. *)
Theorem gpio_toggle_twice_restores (be : Backend) self g v (w : world be) :
  line_faithful be ->
  objs w !! self = Some g ->
  (forall l h, fst (be_gpio_set_level be (pin g) l h) = ESP_OK) ->
  returns (gpio_read be self w) = Some v ->
  is_state v ->
  exists w1 w2,
    gpio_toggle be self w = Done tt w1 /\
    returns (gpio_read be self w1) = Some (invert v) /\
    gpio_toggle be self w1 = Done tt w2 /\
    returns (gpio_read be self w2) = Some v.
Proof.
  intros Hlf Hg Hok Hv Hs.
  rewrite (gpio_read_run be self g w Hg) in Hv. cbn in Hv. simplify_eq.
  assert (Hstep : forall (u : world be),
    objs u !! self = Some g ->
    exists u1,
      gpio_toggle be self u = Done tt u1 /\
      objs u1 !! self = Some g /\
      be_gpio_get_level be (pin g) (hw u1) = invert (be_gpio_get_level be (pin g) (hw u))).
  { intros u Hu. rewrite (gpio_toggle_full_run be self g u Hu).
    eexists. split; [reflexivity |]. split; [exact Hu |]. cbn [hw].
    rewrite (lf_set_get be Hlf) by apply Hok.
    unfold invert. by destruct (be_gpio_get_level be (pin g) (hw u) =? GPIO_STATE_LOW). }
  destruct (Hstep w Hg) as (w1 & Ht1 & Hg1 & Hl1).
  destruct (Hstep w1 Hg1) as (w2 & Ht2 & Hg2 & Hl2).
  exists w1, w2. split; [exact Ht1 |]. split.
  { rewrite (gpio_read_run be self g w1 Hg1). cbn. by rewrite Hl1. }
  split; [exact Ht2 |].
  rewrite (gpio_read_run be self g w2 Hg2). cbn. rewrite Hl2, Hl1.
  by destruct Hs as [-> | ->].
Qed.

Lemma gpio_toggle_twice_restores_witness :
  exists w1 w2,
    gpio_toggle Sim.backend 16 boot0 = Done tt w1 /\
    returns (gpio_read Sim.backend 16 w1) = Some (invert GPIO_STATE_LOW) /\
    gpio_toggle Sim.backend 16 w1 = Done tt w2 /\
    returns (gpio_read Sim.backend 16 w2) = Some GPIO_STATE_LOW.
Proof.
  apply (gpio_toggle_twice_restores Sim.backend 16 led GPIO_STATE_LOW boot0).
  - exact sim_line_faithful.
  - vm_compute; reflexivity.
  - intros l h. reflexivity.
  - vm_compute; reflexivity.
  - left; reflexivity.
Defined.

(** ** Input pins *)

(** An input pin with no handler is set up as a polled input: an
    initialisation that returns has configured the pin as an input with
    pull-up and falling-edge trigger, and has made no handler
    registration, no level write and no other pin configuration. *)
Theorem polled_input_is_only_configured (be : Backend) self g (w w' : world be) :
  objs w !! self = Some g ->
  _mode g = GPIO_MODE_INPUT ->
  isr_handler g = fn_null ->
  gpio_init_impl be self w = Done tt w' ->
  exists tail,
    extends w w'
      ([Ev_call (Call_gpio_config
                   (mk_gpio_config (Z.shiftl 1 (uint8_cast (pin g))) GPIO_MODE_INPUT
                      GPIO_PULLUP_ENABLE GPIO_PULLDOWN_DISABLE GPIO_INTR_NEGEDGE)) ESP_OK;
        Ev_log LOG_INFO "Configured pin %d as input" [pin g]] ++ tail) /\
    List.forallb (fun e => negb (is_pin_setup e)) tail = true.
Proof.
  intros Hg Hm Hh. rewrite (gpio_init_impl_cases be self g w Hg).
  rewrite (init_switch_input_run be self (wired g)); [| exact Hm].
  cbn [pin isr_handler wired with_set_state with_get_state]. rewrite Hh.
  destruct ((0 <=? uint8_cast (pin g)) && (uint8_cast (pin g) <? 64)); [| done].
  cbn zeta. cbn [hw after_prologue is_null_fn].
  destruct (be_gpio_config be _ (hw w)) as [r0 h0].
  cbn [fst snd]. destruct (r0 =? ESP_OK) eqn:R0; [| done].
  apply Z.eqb_eq in R0. subst r0.
  rewrite init_install_run. cbn [isr_service_installed emit set_hw hw after_prologue].
  destruct (isr_service_installed w).
  - intros ?; simplify_eq. eexists [_]. split; [solve_extends | reflexivity].
  - cbn zeta.
    destruct (be_gpio_install_isr_service be GPIO_ISR_SERVICE_DEFAULT_FLAGS h0) as [r h].
    cbn [fst snd]. destruct (r =? ESP_OK); [| done].
    intros ?; simplify_eq. eexists [_]. split; [solve_extends | reflexivity].
Qed.

Lemma polled_input_is_only_configured_witness :
  exists tail,
    extends boot0 (after [Op_init 48])
      ([Ev_call (Call_gpio_config
                   (mk_gpio_config (Z.shiftl 1 (uint8_cast D5)) GPIO_MODE_INPUT
                      GPIO_PULLUP_ENABLE GPIO_PULLDOWN_DISABLE GPIO_INTR_NEGEDGE)) ESP_OK;
        Ev_log LOG_INFO "Configured pin %d as input" [D5]] ++ tail) /\
    List.forallb (fun e => negb (is_pin_setup e)) tail = true.
Proof.
  apply (polled_input_is_only_configured Sim.backend 48 switch boot0).
  - vm_compute; reflexivity.
  - reflexivity.
  - reflexivity.
  - unfold after. cbn [run step]. unfold bind at 1.
    rewrite (returns_Done (gpio_init_impl Sim.backend 48 boot0) tt boot0)
      by (vm_compute; reflexivity).
    reflexivity.
Defined.

(** The handler is registered before the dispatch service is installed:
    when an input pin with a handler is initialised while the service is
    not installed and the platform rejects the registration, the program
    is aborted right after that call; the installation primitive is not
    called and the flag stays clear. *)
Theorem rejected_registration_aborts_before_install (be : Backend) self g (w : world be) :
  objs w !! self = Some g ->
  _mode g = GPIO_MODE_INPUT ->
  is_null_fn (isr_handler g) = false ->
  0 <= uint8_cast (pin g) < 64 ->
  isr_service_installed w = false ->
  fst (be_gpio_config be (input_config (Z.shiftl 1 (uint8_cast (pin g)))) (hw w)) = ESP_OK ->
  fst (be_gpio_isr_handler_add be (pin g) (isr_handler g) NULL
         (snd (be_gpio_config be (input_config (Z.shiftl 1 (uint8_cast (pin g)))) (hw w))))
    <> ESP_OK ->
  exists w',
    gpio_init_impl be self w = Aborted w' /\
    extends w w'
      [Ev_call (Call_gpio_config (input_config (Z.shiftl 1 (uint8_cast (pin g))))) ESP_OK;
       Ev_log LOG_INFO "Configured pin %d as input" [pin g];
       Ev_call (Call_gpio_isr_handler_add (pin g) (isr_handler g) NULL)
         (fst (be_gpio_isr_handler_add be (pin g) (isr_handler g) NULL
                 (snd (be_gpio_config be (input_config (Z.shiftl 1 (uint8_cast (pin g))))
                         (hw w)))))] /\
    isr_service_installed w' = false /\
    install_calls (trace w') = install_calls (trace w).
Proof.
  intros Hg Hm Hh Hp Hf Hc Ha. rewrite (gpio_init_impl_cases be self g w Hg).
  rewrite (init_switch_input_run be self (wired g)); [| exact Hm].
  cbn [pin isr_handler wired with_set_state with_get_state]. rewrite Hh.
  assert (Hr : (0 <=? uint8_cast (pin g)) && (uint8_cast (pin g) <? 64) = true).
  { apply andb_true_intro. split; [apply Z.leb_le | apply Z.ltb_lt]; lia. }
  rewrite Hr. cbn zeta. cbn [hw after_prologue].
  rewrite Hc. cbn [Z.eqb ESP_OK].
  apply Z.eqb_neq in Ha. rewrite Ha.
  eexists. split; [reflexivity |]. split; [solve_extends |]. split; [exact Hf |].
  cbn [trace emit set_hw after_prologue].
  rewrite !install_calls_app, !install_calls_not_install by reflexivity. lia.
Qed.

Lemma rejected_registration_aborts_before_install_witness :
  exists w',
    gpio_init_impl Sim.backend 64 boot0 = Aborted w' /\
    extends boot0 w'
      [Ev_call (Call_gpio_config (input_config (Z.shiftl 1 (uint8_cast D5)))) ESP_OK;
       Ev_log LOG_INFO "Configured pin %d as input" [D5];
       Ev_call (Call_gpio_isr_handler_add D5 (fn_user 7) NULL) ESP_ERR_INVALID_STATE] /\
    isr_service_installed w' = false /\
    install_calls (trace w') = install_calls (trace boot0).
Proof.
  apply (rejected_registration_aborts_before_install Sim.backend 64 button boot0).
  - vm_compute; reflexivity.
  - reflexivity.
  - reflexivity.
  - change (0 <= 5 < 64). lia.
  - reflexivity.
  - vm_compute; reflexivity.
  - vm_compute; discriminate.
Defined.

(** ** Rejected pin configuration *)

(** When the platform rejects the pin configuration of an input or
    output object, the program is aborted right after that call: no
    handler is registered, no level is written, the dispatch service is
    not installed and the flag is as before.  The assignments made before
    the [switch] have happened: the object has its two accessors and
    [s_gpio_instance] points to it. *)
Theorem rejected_config_aborts (be : Backend) self g (w : world be) :
  objs w !! self = Some g ->
  valid_mode (_mode g) = true ->
  0 <= shift_count g < 64 ->
  fst (be_gpio_config be (pin_config g) (hw w)) <> ESP_OK ->
  exists w',
    gpio_init_impl be self w = Aborted w' /\
    extends w w'
      [Ev_call (Call_gpio_config (pin_config g))
               (fst (be_gpio_config be (pin_config g) (hw w)))] /\
    isr_service_installed w' = isr_service_installed w /\
    s_gpio_instance w' = self /\
    objs w' !! self = Some (wired g).
Proof.
  intros Hg Hm Hp Hc. rewrite (gpio_init_impl_cases be self g w Hg).
  assert (Hr : (0 <=? shift_count g) && (shift_count g <? 64) = true).
  { apply andb_true_intro. split; [apply Z.leb_le | apply Z.ltb_lt]; lia. }
  apply Z.eqb_neq in Hc.
  unfold pin_config, shift_count in *.
  destruct (_mode g) eqn:Em; try discriminate Hm.
  - rewrite (init_switch_input_run be self (wired g)); [| exact Em].
    cbn [pin isr_handler wired with_set_state with_get_state].
    rewrite Hr. cbn zeta. cbn [hw after_prologue]. rewrite Hc.
    eexists. split; [reflexivity |]. split; [solve_extends |].
    split; [reflexivity |]. split; [reflexivity |]. apply lookup_insert_eq.
  - rewrite (init_switch_output_run be self (wired g)); [| exact Em | apply lookup_insert_eq].
    cbn [pin _act_state wired with_set_state with_get_state].
    rewrite Hr. cbn zeta. cbn [hw after_prologue]. rewrite Hc.
    eexists. split; [reflexivity |]. split; [solve_extends |].
    split; [reflexivity |]. split; [reflexivity |]. apply lookup_insert_eq.
Qed.

Lemma rejected_config_aborts_witness :
  exists w',
    gpio_init_impl Sim.backend 112 boot1 = Aborted w' /\
    extends boot1 w'
      [Ev_call (Call_gpio_config (output_config (Z.shiftl 1 D34))) ESP_ERR_INVALID_ARG] /\
    isr_service_installed w' = isr_service_installed boot1 /\
    s_gpio_instance w' = 112 /\
    objs w' !! 112 = Some (wired valve).
Proof.
  apply (rejected_config_aborts Sim.backend 112 valve boot1).
  - vm_compute; reflexivity.
  - reflexivity.
  - change (0 <= 34 < 64). lia.
  - vm_compute; discriminate.
Defined.

(** ** The configured pin *)

Lemma shiftl_1_testbit (p i : Z) :
  0 <= p -> 0 <= i -> Z.testbit (Z.shiftl 1 p) i = (i =? p).
Proof.
  intros Hp Hi. rewrite Z.shiftl_1_l, Z.pow2_bits_eqb by lia. apply Z.eqb_sym.
Qed.

(** For an input or output object whose pin number is within 0..63, an
    initialisation that returns has configured, as its first backend
    call, exactly the object's pin: the mask passed to the platform has
    bit [pin] set and no other. *)
Theorem init_configures_exactly_the_pin (be : Backend) self g (w w' : world be) :
  objs w !! self = Some g ->
  valid_mode (_mode g) = true ->
  0 <= pin g < 64 ->
  gpio_init_impl be self w = Done tt w' ->
  exists tail,
    extends w w' (Ev_call (Call_gpio_config (pin_config g)) ESP_OK :: tail) /\
    forall i, 0 <= i -> Z.testbit (pin_bit_mask (pin_config g)) i = (i =? pin g).
Proof.
  intros Hg Hm Hp. rewrite (gpio_init_impl_cases be self g w Hg).
  assert (Hsc : shift_count g = pin g).
  { unfold shift_count. destruct (_mode g); try reflexivity.
    unfold uint8_cast. apply Z.mod_small. lia. }
  assert (Hbits : forall i, 0 <= i ->
            Z.testbit (pin_bit_mask (pin_config g)) i = (i =? pin g)).
  { intros i Hi. unfold pin_config. rewrite Hsc.
    destruct (_mode g); cbn [pin_bit_mask input_config output_config];
      apply shiftl_1_testbit; lia. }
  assert (Hfin : forall (u : world be),
    init_install be u = Done tt w' -> exists evs, extends u w' evs).
  { intros u Hrun. rewrite init_install_run in Hrun.
    destruct (isr_service_installed u).
    - simplify_eq. by eexists [_].
    - cbn zeta in Hrun.
      destruct (be_gpio_install_isr_service be _ (hw u)) as [r h].
      cbn [fst snd] in Hrun. destruct (r =? ESP_OK); [| done].
      simplify_eq. eexists [_]. solve_extends. }
  assert (Hr : (0 <=? pin g) && (pin g <? 64) = true).
  { apply andb_true_intro. split; [apply Z.leb_le | apply Z.ltb_lt]; lia. }
  unfold pin_config in *. rewrite Hsc in *. clear Hsc.
  destruct (_mode g) eqn:Em; try discriminate Hm.
  - rewrite (init_switch_input_run be self (wired g)); [| exact Em].
    cbn [pin isr_handler wired with_set_state with_get_state].
    replace (uint8_cast (pin g)) with (pin g)
      by (unfold uint8_cast; symmetry; apply Z.mod_small; lia).
    rewrite Hr. cbn zeta. cbn [hw after_prologue].
    destruct (be_gpio_config be _ (hw w)) as [r0 h0].
    cbn [fst snd]. destruct (r0 =? ESP_OK) eqn:R0; [| done].
    apply Z.eqb_eq in R0. subst r0.
    destruct (is_null_fn (isr_handler g)).
    + intros Hrun.
      destruct (Hfin _ Hrun) as (evs & Hev).
      eexists. split; [| exact Hbits].
      unfold extends in *. rewrite Hev. cbn [trace emit set_hw after_prologue].
      rewrite <- !List.app_assoc. reflexivity.
    + destruct (be_gpio_isr_handler_add be (pin g) (isr_handler g) NULL h0) as [r1 h1].
      cbn [fst snd]. destruct (r1 =? ESP_OK); [| done].
      intros Hrun.
      destruct (Hfin _ Hrun) as (evs & Hev).
      eexists. split; [| exact Hbits].
      unfold extends in *. rewrite Hev. cbn [trace emit set_hw after_prologue].
      rewrite <- !List.app_assoc. reflexivity.
  - rewrite (init_switch_output_run be self (wired g)); [| exact Em | apply lookup_insert_eq].
    cbn [pin _act_state wired with_set_state with_get_state].
    rewrite Hr. cbn zeta. cbn [hw after_prologue].
    destruct (be_gpio_config be _ (hw w)) as [r0 h0].
    cbn [fst snd]. destruct (r0 =? ESP_OK) eqn:R0; [| done].
    apply Z.eqb_eq in R0. subst r0.
    intros Hrun.
    destruct (Hfin _ Hrun) as (evs & Hev).
    eexists. split; [| exact Hbits].
    unfold extends in *. rewrite Hev. cbn [trace emit set_hw after_prologue].
    rewrite <- !List.app_assoc. reflexivity.
Qed.

Lemma init_configures_exactly_the_pin_witness :
  exists tail,
    extends boot0 (after [Op_init 32])
      (Ev_call (Call_gpio_config (pin_config lamp)) ESP_OK :: tail) /\
    forall i, 0 <= i -> Z.testbit (pin_bit_mask (pin_config lamp)) i = (i =? pin lamp).
Proof.
  apply (init_configures_exactly_the_pin Sim.backend 32 lamp boot0).
  - vm_compute; reflexivity.
  - reflexivity.
  - change (0 <= 4 < 64). lia.
  - unfold after. cbn [run step]. unfold bind at 1.
    rewrite (returns_Done (gpio_init_impl Sim.backend 32 boot0) tt boot0)
      by (vm_compute; reflexivity).
    reflexivity.
Defined.

(** ** Handler registration in [gpio_set_config_input] *)

(** Called with a handler, [gpio_set_config_input] returns only
    [ESP_OK], and when it returns it has configured the pin and then
    registered, for that pin, the very handler and argument it was
    given. *)
Theorem gpio_set_config_input_forwards_argument (be : Backend) p handler arg r
    (w w' : world be) :
  is_null_fn handler = false ->
  gpio_set_config_input be p handler arg w = Done r w' ->
  r = ESP_OK /\
  extends w w'
    [Ev_call (Call_gpio_config (input_config (Z.shiftl 1 (uint8_cast p)))) ESP_OK;
     Ev_log LOG_INFO "Configured pin %d as input" [p];
     Ev_call (Call_gpio_isr_handler_add p handler arg) ESP_OK;
     Ev_log LOG_INFO "Configured ISR handler for pin %d" [p]].
Proof.
  intros Hh. unfold gpio_set_config_input. unfold bind at 1 2. unfold shl_1ULL.
  destruct ((0 <=? uint8_cast p) && (uint8_cast p <? 64)); [| done].
  unfold bind at 1. unfold ESP_ERROR_CHECK at 1. unfold gpio_config, call.
  destruct (be_gpio_config be _ (hw w)) as [r0 h0].
  destruct (r0 =? ESP_OK) eqn:R0; [| done]. apply Z.eqb_eq in R0. subst r0.
  unfold bind at 1. unfold ESP_LOGI at 1. rewrite Hh.
  unfold bind at 1. unfold ESP_ERROR_CHECK, gpio_isr_handler_add, call. cbn [hw emit set_hw].
  destruct (be_gpio_isr_handler_add be p handler arg h0) as [r1 h1].
  destruct (r1 =? ESP_OK) eqn:R1; [| done]. apply Z.eqb_eq in R1. subst r1.
  unfold bind, ESP_LOGI, ret. intros ?; simplify_eq.
  split; [reflexivity | solve_extends].
Qed.

Lemma gpio_set_config_input_forwards_argument_witness :
  ESP_OK = ESP_OK /\
  extends two_inits
    (world_of (gpio_set_config_input Sim.backend D5 (fn_user 7) 4096 two_inits) boot0)
    [Ev_call (Call_gpio_config (input_config (Z.shiftl 1 (uint8_cast D5)))) ESP_OK;
     Ev_log LOG_INFO "Configured pin %d as input" [D5];
     Ev_call (Call_gpio_isr_handler_add D5 (fn_user 7) 4096) ESP_OK;
     Ev_log LOG_INFO "Configured ISR handler for pin %d" [D5]].
Proof.
  apply (gpio_set_config_input_forwards_argument Sim.backend D5 (fn_user 7) 4096 ESP_OK
           two_inits).
  - reflexivity.
  - apply returns_Done. vm_compute; reflexivity.
Defined.

(** ** Programs without initialisation *)

Section Steady.

Variable be : Backend.

Lemma gpio_write_dangling self s (w : world be) :
  objs w !! self = None -> gpio_write be self s w = Fault.
Proof. intros Hg. unfold gpio_write, bind, load. by rewrite Hg. Qed.

Lemma gpio_read_dangling self (w : world be) :
  objs w !! self = None -> gpio_read be self w = Fault.
Proof. intros Hg. unfold gpio_read, bind, load. by rewrite Hg. Qed.

Lemma gpio_toggle_dangling self (w : world be) :
  objs w !! self = None -> gpio_toggle be self w = Fault.
Proof. intros Hg. unfold gpio_toggle, bind. by rewrite (gpio_read_dangling self w Hg). Qed.

Lemma gpio_enable_isr_dangling self (w : world be) :
  objs w !! self = None -> gpio_enable_isr be self w = Fault.
Proof. intros Hg. unfold gpio_enable_isr, bind, load. by rewrite Hg. Qed.

Lemma gpio_disable_isr_dangling self (w : world be) :
  objs w !! self = None -> gpio_disable_isr be self w = Fault.
Proof. intros Hg. unfold gpio_disable_isr, bind, load. by rewrite Hg. Qed.

Lemma steady_refl (w : world be) : steady w w.
Proof.
  repeat split. exists []. split; [| reflexivity].
  unfold extends. by rewrite List.app_nil_r.
Qed.

Lemma steady_trans (w1 w2 w3 : world be) : steady w1 w2 -> steady w2 w3 -> steady w1 w3.
Proof.
  intros (Ho1 & Hf1 & Hi1 & e1 & He1 & Hc1) (Ho2 & Hf2 & Hi2 & e2 & He2 & Hc2).
  repeat split; try congruence.
  exists (e1 ++ e2). split.
  - unfold extends in *. by rewrite He2, He1, <- List.app_assoc.
  - rewrite List.forallb_app, Hc1, Hc2. reflexivity.
Qed.

Lemma step_steady (o : op) (w w' : world be) :
  is_init o = false ->
  final_world (step be o w) = Some w' ->
  step be o w = Done tt w' /\ steady w w'.
Proof.
  intros Ho.
  destruct o as [self | self s | self | self | self | self]; [discriminate | | | | |];
    cbn [step]; unfold discard, bind;
    (destruct (objs w !! self) as [g |] eqn:Hg;
     [| rewrite ?(gpio_write_dangling self s w Hg), ?(gpio_read_dangling self w Hg),
          ?(gpio_toggle_dangling self w Hg), ?(gpio_enable_isr_dangling self w Hg),
          ?(gpio_disable_isr_dangling self w Hg); done]).
  - rewrite (gpio_write_run be self g s w Hg). cbn. intros ?; simplify_eq.
    split; [done |]. repeat split. by eexists [_].
  - rewrite (gpio_read_run be self g w Hg). cbn. intros ?; simplify_eq.
    split; [done |]. repeat split. by eexists [_].
  - rewrite (gpio_toggle_full_run be self g w Hg). cbn. intros ?; simplify_eq.
    split; [done |]. repeat split. by eexists [_; _].
  - rewrite (gpio_disable_isr_run be self g w Hg). cbn. intros ?; simplify_eq.
    split; [done |]. repeat split. by eexists [_].
  - rewrite (gpio_enable_isr_run be self g w Hg). cbn. intros ?; simplify_eq.
    split; [done |]. repeat split. by eexists [_].
Qed.

Lemma run_steady (os : list op) : forall (w w' : world be),
  List.forallb (fun o => negb (is_init o)) os = true ->
  final_world (run be os w) = Some w' ->
  run be os w = Done tt w' /\ steady w w'.
Proof.
  induction os as [| o os IH]; intros w w' Hos Hfin.
  - cbn in *. simplify_eq. split; [done | apply steady_refl].
  - cbn [List.forallb] in Hos. apply andb_prop in Hos as [Ho%negb_true_iff Hos].
    cbn [run] in *. unfold bind in *.
    destruct (step be o w) as [u w1 | w1 |] eqn:E; [| | done].
    + destruct (step_steady o w w1 Ho) as [_ Hs1]; [by rewrite E |].
      destruct (IH w1 w' Hos Hfin) as [Hrun Hs2].
      split; [done | by apply (steady_trans w w1 w')].
    + destruct (step_steady o w w1 Ho) as [Hd _]; [by rewrite E |]. congruence.
Qed.

End Steady.

(** A program made of writes, reads, toggles and interrupt masking only,
    run on valid objects, never aborts; it leaves the objects, the
    installed flag and [s_gpio_instance] as they were, and makes no pin
    configuration, no handler registration and no installation call. *)
Theorem steady_operations_only_drive_lines (be : Backend) (os : list op)
    (w w' : world be) :
  List.forallb (fun o => negb (is_init o)) os = true ->
  final_world (run be os w) = Some w' ->
  run be os w = Done tt w' /\
  objs w' = objs w /\
  isr_service_installed w' = isr_service_installed w /\
  s_gpio_instance w' = s_gpio_instance w /\
  exists evs,
    extends w w' evs /\
    List.forallb (fun e => negb (is_setup_call e)) evs = true.
Proof. intros Hos Hfin. exact (run_steady be os w w' Hos Hfin). Qed.

Lemma steady_operations_only_drive_lines_witness :
  run Sim.backend
    [Op_write 16 GPIO_STATE_HIGH; Op_read 16; Op_toggle 16; Op_enable_isr 48;
     Op_disable_isr 48] two_inits =
    Done tt (world_of (run Sim.backend
                         [Op_write 16 GPIO_STATE_HIGH; Op_read 16; Op_toggle 16;
                          Op_enable_isr 48; Op_disable_isr 48] two_inits) boot0) /\
  objs (world_of (run Sim.backend
                    [Op_write 16 GPIO_STATE_HIGH; Op_read 16; Op_toggle 16;
                     Op_enable_isr 48; Op_disable_isr 48] two_inits) boot0) =
    objs two_inits /\
  isr_service_installed
    (world_of (run Sim.backend
                 [Op_write 16 GPIO_STATE_HIGH; Op_read 16; Op_toggle 16;
                  Op_enable_isr 48; Op_disable_isr 48] two_inits) boot0) =
    isr_service_installed two_inits /\
  s_gpio_instance
    (world_of (run Sim.backend
                 [Op_write 16 GPIO_STATE_HIGH; Op_read 16; Op_toggle 16;
                  Op_enable_isr 48; Op_disable_isr 48] two_inits) boot0) =
    s_gpio_instance two_inits /\
  exists evs,
    extends two_inits
      (world_of (run Sim.backend
                   [Op_write 16 GPIO_STATE_HIGH; Op_read 16; Op_toggle 16;
                    Op_enable_isr 48; Op_disable_isr 48] two_inits) boot0) evs /\
    List.forallb (fun e => negb (is_setup_call e)) evs = true.
Proof.
  apply (steady_operations_only_drive_lines Sim.backend).
  - reflexivity.
  - apply (returns_final _ tt). vm_compute; reflexivity.
Defined.

(** ** What the driver writes to the objects *)

Section Objects.

Variable be : Backend.

Lemma wired_idem (g : gpio_t) : wired (wired g) = wired g.
Proof. by destruct g. Qed.

Lemma only_wired_refl (w : world be) : only_wired w w.
Proof. intros p. by left. Qed.

Lemma only_wired_trans (w1 w2 w3 : world be) :
  only_wired w1 w2 -> only_wired w2 w3 -> only_wired w1 w3.
Proof.
  intros H12 H23 p. destruct (H23 p) as [-> | ->]; destruct (H12 p) as [-> | ->]; auto.
  right. destruct (objs w1 !! p); cbn; [by rewrite wired_idem | done].
Qed.

Lemma step_only_wired (o : op) (w w' : world be) :
  final_world (step be o w) = Some w' -> only_wired w w'.
Proof.
  destruct (is_init o) eqn:Ho.
  - destruct o as [self | | | | |]; try discriminate. cbn [step]. intros Hfin.
    destruct (objs w !! self) as [g |] eqn:Hg;
      [| by rewrite (gpio_init_impl_dangling be self w Hg) in Hfin].
    destruct (gpio_init_impl_spec be self g w w' Hg Hfin) as (Hobjs & _).
    intros p. rewrite Hobjs. destruct (decide (p = self)) as [Heq | Hp].
    + right. rewrite Heq, lookup_insert_eq, Hg. reflexivity.
    + left. by rewrite lookup_insert_ne.
  - intros Hfin. destruct (step_steady be o w w' Ho Hfin) as [_ (Hobjs & _)].
    intros p. left. by rewrite Hobjs.
Qed.

Lemma run_only_wired (os : list op) : forall (w w' : world be),
  final_world (run be os w) = Some w' -> only_wired w w'.
Proof.
  induction os as [| o os IH]; intros w w' Hfin.
  - cbn in Hfin. simplify_eq. apply only_wired_refl.
  - cbn [run] in Hfin. unfold bind in Hfin.
    destruct (step be o w) as [u w1 | w1 |] eqn:E; [| | done].
    + apply (only_wired_trans w w1 w'); [| by apply IH].
      apply (step_only_wired o). by rewrite E.
    + cbn in Hfin. simplify_eq. apply (step_only_wired o). by rewrite E.
Qed.

End Objects.

(** Over any sequence of driver calls, returning or aborting, no object
    is created or destroyed, and an object changes at most in its
    [get_state] and [set_state] fields: its pin, mode, declared state,
    handler, handler argument and [toggle] pointer are never written. *)
Theorem driver_only_assigns_accessors (be : Backend) (os : list op) (w w' : world be)
    (p : ptr) :
  final_world (run be os w) = Some w' ->
  (objs w !! p = None -> objs w' !! p = None) /\
  (forall g, objs w !! p = Some g ->
     exists g',
       objs w' !! p = Some g' /\
       (g' = g \/ g' = with_set_state fn_gpio_write (with_get_state fn_gpio_read g)) /\
       pin g' = pin g /\
       _mode g' = _mode g /\
       _act_state g' = _act_state g /\
       isr_handler g' = isr_handler g /\
       isr_handler_arg g' = isr_handler_arg g /\
       toggle g' = toggle g).
Proof.
  intros Hfin. pose proof (run_only_wired be os w w' Hfin p) as Hp. split.
  - intros Hn. rewrite Hn in Hp. by destruct Hp.
  - intros g Hg. rewrite Hg in Hp. destruct Hp as [Hp | Hp].
    + exists g. repeat split; auto.
    + exists (wired g). repeat split; auto.
Qed.

Lemma driver_only_assigns_accessors_witness :
  (objs two_inits !! 16 = None -> objs five_calls !! 16 = None) /\
  (forall g, objs two_inits !! 16 = Some g ->
     exists g',
       objs five_calls !! 16 = Some g' /\
       (g' = g \/ g' = with_set_state fn_gpio_write (with_get_state fn_gpio_read g)) /\
       pin g' = pin g /\
       _mode g' = _mode g /\
       _act_state g' = _act_state g /\
       isr_handler g' = isr_handler g /\
       isr_handler_arg g' = isr_handler_arg g /\
       toggle g' = toggle g).
Proof.
  apply (driver_only_assigns_accessors Sim.backend
           [Op_init 64; Op_toggle 16; Op_init 48] two_inits five_calls 16).
  apply (returns_final _ tt). vm_compute; reflexivity.
Defined.

(** ** The last initialised object *)

Section Instance.

Variable be : Backend.

#[local] Instance keeps_instance_preorder : PreOrder (@keeps_instance be).
Proof.
  split.
  - by intros w.
  - intros w1 w2 w3 H1 H2. unfold keeps_instance in *. congruence.
Qed.

Lemma call_keeps_instance (c : backend_call) (f : hw_t be -> esp_err_t * hw_t be) :
  preserves keeps_instance (call be c f).
Proof.
  intros w w' H. unfold call in H.
  destruct (f (hw w)) as [r h]. simpl in H. by simplify_eq.
Qed.

Lemma logi_keeps_instance fmt args : preserves keeps_instance (ESP_LOGI be fmt args).
Proof. intros w w' H. unfold ESP_LOGI in H. simpl in H. by simplify_eq. Qed.

Lemma loge_keeps_instance fmt args : preserves keeps_instance (ESP_LOGE be fmt args).
Proof. intros w w' H. unfold ESP_LOGE in H. simpl in H. by simplify_eq. Qed.

Ltac frame_instance :=
  repeat match goal with
  | |- PreOrder _ => typeclasses eauto
  | |- preserves _ (bind _ _ _) => apply preserves_bind; [| | intros ?]
  | |- preserves _ (ESP_ERROR_CHECK _ _) => apply preserves_check
  | |- preserves _ (ret _ _) => apply preserves_ret
  | |- preserves _ (load _ _) => apply preserves_load
  | |- preserves _ (shl_1ULL _ _) => apply preserves_shl
  | |- preserves keeps_instance (call _ _ _) => apply call_keeps_instance
  | |- preserves keeps_instance (ESP_LOGI _ _ _) => apply logi_keeps_instance
  | |- preserves keeps_instance (ESP_LOGE _ _ _) => apply loge_keeps_instance
  end.

Lemma init_switch_keeps_instance inst g : preserves keeps_instance (init_switch be inst g).
Proof.
  unfold init_switch.
  destruct (_mode g);
    unfold gpio_set_config_input, gpio_set_config_output, gpio_write, gpio_config,
      gpio_isr_handler_add, gpio_set_level;
    frame_instance.
  destruct (is_null_fn (isr_handler g)); frame_instance.
Qed.

Lemma gpio_init_impl_instance self (w w' : world be) :
  final_world (gpio_init_impl be self w) = Some w' -> s_gpio_instance w' = self.
Proof.
  destruct (objs w !! self) as [g |] eqn:Hg;
    [| by rewrite (gpio_init_impl_dangling be self w Hg)].
  rewrite (gpio_init_impl_cases be self g w Hg).
  destruct (init_switch be self (wired g) (after_prologue self g w)) as [u w2 | w2 |] eqn:E;
    [| | done].
  - assert (H2 : s_gpio_instance w2 = self).
    { apply (init_switch_keeps_instance self (wired g) (after_prologue self g w)).
      by rewrite E. }
    rewrite init_install_run. destruct (isr_service_installed w2).
    + cbn. intros ?; by simplify_eq.
    + cbn zeta.
      destruct (be_gpio_install_isr_service be GPIO_ISR_SERVICE_DEFAULT_FLAGS (hw w2))
        as [r h].
      cbn [fst snd]. destruct (r =? ESP_OK); cbn; intros ?; by simplify_eq.
  - cbn. intros ?; simplify_eq.
    apply (init_switch_keeps_instance self (wired g) (after_prologue self g w)).
    by rewrite E.
Qed.

Lemma run_last_init (os : list op) : forall (w w' : world be),
  final_world (run be os w) = Some w' ->
  run be os w = Done tt w' ->
  s_gpio_instance w' = last_init os (s_gpio_instance w).
Proof.
  induction os as [| o os IH]; intros w w' Hfin Hrun.
  - cbn in *. by simplify_eq.
  - cbn [run] in *. unfold bind in *.
    destruct (step be o w) as [u w1 | w1 |] eqn:E; [| done | done].
    rewrite (IH w1 w' Hfin Hrun).
    destruct (is_init o) eqn:Ho.
    + destruct o as [self | | | | |]; try discriminate. cbn [step last_init] in *.
      f_equal. apply (gpio_init_impl_instance self w). by rewrite E.
    + destruct (step_steady be o w w1 Ho) as [_ (_ & _ & Hi & _)]; [by rewrite E |].
      rewrite Hi. by destruct o.
Qed.

End Instance.

(** When a sequence of driver calls has returned, [s_gpio_instance]
    points to the object of the last initialisation in the sequence, and
    is unchanged if there was none: the static tracks one object only,
    the most recently initialised. *)
Theorem instance_is_last_initialised (be : Backend) (os : list op) (w w' : world be) :
  run be os w = Done tt w' ->
  s_gpio_instance w' = last_init os (s_gpio_instance w).
Proof.
  intros Hrun. apply (run_last_init be os w w'); [by rewrite Hrun | exact Hrun].
Qed.

Lemma instance_is_last_initialised_witness :
  s_gpio_instance (after [Op_init 96; Op_init 16; Op_init 64; Op_toggle 16; Op_init 48]) = 48.
Proof.
  apply (instance_is_last_initialised Sim.backend
           [Op_init 96; Op_init 16; Op_init 64; Op_toggle 16; Op_init 48] boot0).
  apply returns_Done. vm_compute; reflexivity.
Defined.

(** ** The installed flag and the installation's status *)

Section Flag.

Variable be : Backend.

Lemma no_install_among (evs : list event) (e : event) :
  install_calls evs = 0%nat -> is_install e = true -> ~ In e evs.
Proof.
  induction evs as [| a evs IH]; intros Hc He; [by intros [] |].
  change (a :: evs) with ([a] ++ evs) in Hc. rewrite install_calls_app in Hc.
  intros [-> | Hin].
  - unfold install_calls in Hc. cbn in Hc. rewrite He in Hc. cbn in Hc. lia.
  - apply IH; [lia | done | done].
Qed.

Lemma flag_tells_no_install (w w' : world be) :
  no_install w w' -> flag_tells w -> flag_tells w'.
Proof.
  intros [Hf (evs & Hev & Hc)] Hw. unfold flag_tells, extends in *.
  rewrite Hf, Hev, List.in_app_iff. split.
  - intros H. left. by apply Hw.
  - intros [H | H]; [by apply Hw |].
    by destruct (no_install_among evs install_succeeded Hc eq_refl).
Qed.

Lemma step_flag_tells (o : op) (w w' : world be) :
  flag_tells w -> final_world (step be o w) = Some w' -> flag_tells w'.
Proof.
  intros Hw Hfin.
  destruct o as [self | self s | self | self | self | self]; cbn [step] in Hfin;
    try (apply (flag_tells_no_install w w'); [| exact Hw]; revert Hfin;
         apply discard_no_install || idtac;
         first [ apply gpio_write_no_install | apply gpio_read_no_install
               | apply gpio_toggle_no_install | apply gpio_disable_isr_no_install
               | apply gpio_enable_isr_no_install ]).
  destruct (objs w !! self) as [g |] eqn:Hg;
    [| by rewrite (gpio_init_impl_dangling be self w Hg) in Hfin].
  destruct (gpio_init_impl_spec be self g w w' Hg Hfin) as (_ & evs & Hev & Hcases).
  destruct Hcases as [(_ & Hf & Hc) | [(_ & Hf & Hf' & Hc) | (Hf & evs0 & r & -> & Hc & Hr)]].
  - apply (flag_tells_no_install w w'); [| exact Hw]. split; [done |]. by exists evs.
  - apply (flag_tells_no_install w w'); [| exact Hw]. split; [congruence |]. by exists evs.
  - unfold flag_tells, extends in *. rewrite Hev, !List.in_app_iff.
    destruct Hr as [(-> & _ & Hf') | (Hr & _ & Hf')]; rewrite Hf'.
    + split; [| done]. intros _. right; right. by left.
    + split; [done |]. intros [H | [H | [H | []]]].
      * apply Hw in H. congruence.
      * by destruct (no_install_among evs0 install_succeeded Hc eq_refl).
      * unfold install_succeeded in H. by simplify_eq.
Qed.

Lemma run_flag_tells (os : list op) : forall (w w' : world be),
  flag_tells w -> final_world (run be os w) = Some w' -> flag_tells w'.
Proof.
  induction os as [| o os IH]; intros w w' Hw Hfin.
  - cbn in Hfin. by simplify_eq.
  - cbn [run] in Hfin. unfold bind in Hfin.
    destruct (step be o w) as [u w1 | w1 |] eqn:E; [| | done].
    + apply (IH w1 w'); [| exact Hfin]. apply (step_flag_tells o w); [done | by rewrite E].
    + cbn in Hfin. simplify_eq. apply (step_flag_tells o w); [done | by rewrite E].
Qed.

End Flag.

(** Over any sequence of driver calls from boot, returning or aborting,
    [isr_service_installed] is set exactly if a call of the platform
    installation primitive has returned [ESP_OK]: a failed installation
    is never recorded as done, and a successful one always is. *)
Theorem installed_flag_iff_install_succeeded (be : Backend) (h : hw_t be)
    (heap : gmap Z gpio_t) (os : list op) (w' : world be) :
  final_world (run be os (boot be h heap)) = Some w' ->
  isr_service_installed w' = true <->
  In (Ev_call (Call_gpio_install_isr_service GPIO_ISR_SERVICE_DEFAULT_FLAGS) ESP_OK)
     (trace w').
Proof.
  intros Hfin. apply (run_flag_tells be os (boot be h heap) w'); [| exact Hfin].
  unfold flag_tells. cbn. split; [discriminate | tauto].
Qed.

Lemma installed_flag_iff_install_succeeded_witness :
  isr_service_installed two_inits = true <->
  In (Ev_call (Call_gpio_install_isr_service GPIO_ISR_SERVICE_DEFAULT_FLAGS) ESP_OK)
     (trace two_inits).
Proof.
  apply (installed_flag_iff_install_succeeded Sim.backend Sim.reset heap0
           [Op_init 96; Op_init 16] two_inits).
  apply (returns_final _ tt). vm_compute; reflexivity.
Defined.

(** ** Initialising again *)

Section Again.

Variable be : Backend.

Lemma run_app (os1 os2 : list op) (w : world be) :
  run be (os1 ++ os2) w =
    match run be os1 w with
    | Done _ w1 => run be os2 w1
    | Aborted w1 => Aborted w1
    | Fault => Fault
    end.
Proof.
  revert w. induction os1 as [| o os1 IH]; intros w; [done |].
  cbn [run app]. unfold bind. destruct (step be o w) as [u w1 | w1 |]; [apply IH | done | done].
Qed.

(** The level an output pin reads at after its initialisation has
    returned, on a backend whose lines hold what was written. *)
Lemma output_init_then_read self g (w w' : world be) :
  line_faithful be ->
  objs w !! self = Some g ->
  _mode g = GPIO_MODE_OUTPUT ->
  is_state (_act_state g) ->
  gpio_init_impl be self w = Done tt w' ->
  returns (gpio_read be self w') = Some (_act_state g).
Proof.
  intros Hlf Hg Hm Hs.
  assert (Hn : (if _act_state g =? 0 then 0 else 1) = _act_state g)
    by (destruct Hs as [-> | ->]; reflexivity).
  rewrite (gpio_init_impl_cases be self g w Hg).
  rewrite (init_switch_output_run be self (wired g)); [| exact Hm | apply lookup_insert_eq].
  cbn [pin _act_state wired with_set_state with_get_state].
  rewrite (uint32_cast_state _ Hs).
  destruct ((0 <=? pin g) && (pin g <? 64)); [| done].
  cbn zeta. cbn [hw after_prologue].
  destruct (be_gpio_config be (output_config (Z.shiftl 1 (pin g))) (hw w)) as [r0 h0] eqn:Ec.
  cbn [fst snd]. destruct (r0 =? ESP_OK) eqn:R0; [| done].
  apply Z.eqb_eq in R0. subst r0.
  pose proof (lf_output_writable be Hlf (pin g) (_act_state g) (hw w) h0 Ec) as Hw.
  pose proof (lf_set_get be Hlf (pin g) (_act_state g) h0 Hw) as Hget.
  rewrite Hn in Hget.
  rewrite init_install_run. cbn [isr_service_installed emit set_hw hw after_prologue].
  destruct (isr_service_installed w).
  - intros ?; simplify_eq.
    rewrite (gpio_read_run be self (wired g)); [| apply lookup_insert_eq].
    cbn [returns hw emit set_hw pin wired with_set_state with_get_state].
    by rewrite Hget.
  - cbn zeta.
    pose proof (lf_install_keeps_level be Hlf GPIO_ISR_SERVICE_DEFAULT_FLAGS (pin g)
                  (snd (be_gpio_set_level be (pin g) (_act_state g) h0))) as Hkeep.
    destruct (be_gpio_install_isr_service be GPIO_ISR_SERVICE_DEFAULT_FLAGS
                (snd (be_gpio_set_level be (pin g) (_act_state g) h0))) as [r h].
    cbn [fst snd] in *. destruct (r =? ESP_OK); [| done].
    intros ?; simplify_eq.
    rewrite (gpio_read_run be self (wired g)); [| apply lookup_insert_eq].
    cbn [returns hw emit set_installed set_hw pin wired with_set_state with_get_state].
    by rewrite Hkeep, Hget.
Qed.

End Again.

(** Whatever driver calls came before (writes, toggles, other
    initialisations), initialising an output object drives its line to
    the state declared in its [_act_state] field: on a backend whose
    lines hold what was written, the pin then reads at the declared
    state of the object as it was at the start, not at the last level
    written. *)
Theorem init_restores_declared_state (be : Backend) (os : list op) self g
    (w w' : world be) :
  line_faithful be ->
  objs w !! self = Some g ->
  _mode g = GPIO_MODE_OUTPUT ->
  is_state (_act_state g) ->
  run be (os ++ [Op_init self]) w = Done tt w' ->
  returns (gpio_read be self w') = Some (_act_state g).
Proof.
  intros Hlf Hg Hm Hs. rewrite run_app.
  destruct (run be os w) as [u w1 | w1 |] eqn:E; [| done | done].
  cbn [run]. unfold bind.
  destruct (step be (Op_init self) w1) as [[] w2 | w2 |] eqn:E2; [| done | done].
  cbn [step] in *. unfold ret. intros ?; simplify_eq.
  assert (H1 : only_wired w w1) by (apply (run_only_wired be os); by rewrite E).
  destruct (H1 self) as [Hp | Hp]; rewrite Hg in Hp.
  - by apply (output_init_then_read be self g w1 w').
  - by apply (output_init_then_read be self (wired g) w1 w').
Qed.

Lemma init_restores_declared_state_witness :
  returns (gpio_read Sim.backend 16
             (after ([Op_init 16; Op_write 16 GPIO_STATE_HIGH; Op_toggle 16;
                      Op_write 16 GPIO_STATE_HIGH] ++ [Op_init 16]))) =
    Some GPIO_STATE_LOW.
Proof.
  apply (init_restores_declared_state Sim.backend
           [Op_init 16; Op_write 16 GPIO_STATE_HIGH; Op_toggle 16; Op_write 16 GPIO_STATE_HIGH]
           16 led boot0).
  - exact sim_line_faithful.
  - vm_compute; reflexivity.
  - reflexivity.
  - left; reflexivity.
  - apply returns_Done. vm_compute; reflexivity.
Defined.
